(** * Commit-message generator of the VS Code extension (src/extension.ts)

    A shallow embedding of [CommitMessageGenerator]: its constructor,
    [generateCommitMessage] and [getFormatRules], together with the JavaScript
    string operations they rely on.  The host (VS Code configuration, the git
    child processes, the completion API) is a record of oracles; the external
    calls the code makes are recorded in a trace.  The command handler that
    [activate] registers is embedded on top of it, with the git extension and
    the quick pick as further oracles and its messages, console lines and
    input-box writes as events. *)

From Stdlib Require Import Ascii String.
From Stdlib Require Import List NArith ZArith Bool Lia.
From Stdlib Require DecimalString.
Import ListNotations.

(** ** JavaScript strings *)

Module JS.

(** A JavaScript string is a sequence of UTF-16 code units. *)
Definition codeunit : Type := N.
Definition str : Type := list codeunit.

Definition str_eq_dec : forall a b : str, {a = b} + {a <> b} :=
  list_eq_dec N.eq_dec.

(** [a === b] on strings. *)
Definition strict_eq (a b : str) : bool :=
  if str_eq_dec a b then true else false.

(** Source literals are ASCII: one code unit per character.  A line break
    inside a template literal is the single code unit 10. *)
Definition lit (s : string) : str :=
  map N_of_ascii (list_ascii_of_string s).

Definition LF : codeunit := 10%N.

(** ECMAScript WhiteSpace and LineTerminator code points, the ones
    [String.prototype.trim] strips: TAB, LF, VT, FF, CR, SP, NBSP, the
    remaining space separators (Zs) and U+2028, U+2029, U+FEFF. *)
Definition isWhiteSpace (c : codeunit) : bool :=
  ((9 <=? c) && (c <=? 13) || (c =? 32) || (c =? 160) || (c =? 5760)
   || (8192 <=? c) && (c <=? 8202)
   || (c =? 8232) || (c =? 8233) || (c =? 8239) || (c =? 8287)
   || (c =? 12288) || (c =? 65279))%N.

Fixpoint trimStart (s : str) : str :=
  match s with
  | c :: s' => if isWhiteSpace c then trimStart s' else s
  | [] => []
  end.

Definition trimEnd (s : str) : str := rev (trimStart (rev s)).

Definition trim (s : str) : str := trimEnd (trimStart s).

(** Truthiness of a string value: every string but the empty one. *)
Definition truthy (s : str) : bool :=
  match s with [] => false | _ :: _ => true end.

(** [Array.prototype.join] on an array of strings. *)
Fixpoint join (sep : str) (xs : list str) : str :=
  match xs with
  | [] => []
  | [x] => x
  | x :: rest => x ++ sep ++ join sep rest
  end.

(** [a || d] where [a] is a string or [undefined]. *)
Definition or_str (a : option str) (d : str) : str :=
  match a with
  | Some s => if truthy s then s else d
  | None => d
  end.

(** [a || d] where [a] is a number or [undefined]; numbers are modelled as
    integers, of which only 0 is falsy. *)
Definition or_num (a : option Z) (d : Z) : Z :=
  match a with
  | Some n => if (n =? 0)%Z then d else n
  | None => d
  end.

(** [a || d] where [a] is an array or [undefined]: every array is truthy,
    the empty one included. *)
Definition or_arr {A : Type} (a : option (list A)) (d : list A) : list A :=
  match a with
  | Some l => l
  | None => d
  end.

End JS.

Import JS.

(** ** getFormatRules (extension.ts, lines 102-130) *)

Definition getFormatRules (commitFormat customTemplate : str) : str :=
  if strict_eq commitFormat (lit "conventional") then
    lit "Rules:
- Use conventional commit format
- Keep under 72 characters for the first line
- Be specific and clear
- Common types: feat, fix, docs, style, refactor, test, chore"
  else if strict_eq commitFormat (lit "angular") then
    lit "Rules:
- Use Angular commit format: <type>(<scope>): <description>
- Types: build, ci, docs, feat, fix, perf, refactor, style, test
- Keep under 100 characters for the first line
- Use imperative mood"
  else if strict_eq commitFormat (lit "custom") then
    if truthy customTemplate then
      lit "Rules:
- Follow this custom template: " ++ customTemplate ++ lit "
- Be specific and clear"
    else
      lit "Rules:
- Use conventional commit format
- Keep under 72 characters for the first line
- Be specific and clear"
  else
    lit "Rules:
- Use conventional commit format
- Keep under 72 characters for the first line
- Be specific and clear
- Common types: feat, fix, docs, style, refactor, test, chore".

(** ** The host: configuration, child processes, completion API *)

(** A thrown value: an [Error] carrying its [message]. *)
Record Error : Type := mkError { message : str }.

(** What [config.get(key)] returns for each key the code reads;
    [None] is [undefined]. *)
Record Config : Type := {
  cfg_baseUrl : option str;
  cfg_authToken : option str;
  cfg_model : option str;
  cfg_maxTokens : option Z;
  cfg_customRules : option (list str);
  cfg_commitFormat : option str;
  cfg_customTemplate : option str
}.

(** The options object handed to [new Anthropic(...)]; an absent property
    is [None]. *)
Record ClientOptions : Type := {
  baseURL : option str;
  authToken : option str
}.

Record CacheControl : Type := { cache_type : str }.

Record SystemBlock : Type := {
  sys_type : str;
  sys_text : str;
  sys_cache_control : CacheControl
}.

Record MessageParam : Type := { role : str; content : str }.

Record MessageCreateParams : Type := {
  model : str;
  max_tokens : Z;
  messages : list MessageParam;
  system : list SystemBlock
}.

(** Content blocks of a response, a union discriminated by [type]. *)
Inductive ContentBlock : Type :=
| TextBlock (text : str)
| ToolUseBlock (id name : str)
| ThinkingBlock (thinking signature : str)
| RedactedThinkingBlock (data : str).

Definition block_type (b : ContentBlock) : str :=
  match b with
  | TextBlock _ => lit "text"
  | ToolUseBlock _ _ => lit "tool_use"
  | ThinkingBlock _ _ => lit "thinking"
  | RedactedThinkingBlock _ => lit "redacted_thinking"
  end.

(** [(block as any).text]; only text blocks carry the property, and only
    text blocks are ever asked for it. *)
Definition block_text (b : ContentBlock) : str :=
  match b with
  | TextBlock t => t
  | _ => []
  end.

(** The environment the generator runs in.  Each external call either
    yields a value ([inr]) or throws / rejects ([inl]). *)
Record World : Type := {
  getConfiguration : str -> Error + Config;
  (* [uri.fsPath] of each entry of [vscode.workspace.workspaceFolders] *)
  workspaceFolders : option (list str);
  (* promisified [exec(command, {cwd})]: its [stdout] *)
  exec : str -> option str -> Error + str;
  (* [client.messages.create(params)]: the [content] of the response *)
  messages_create : ClientOptions -> MessageCreateParams
                    -> Error + list ContentBlock
}.

(** External calls, in the order they are issued. *)
Inductive Event : Type :=
| Spawn (command : str) (cwd : option str)
| ApiRequest (options : ClientOptions) (params : MessageCreateParams).

Definition Trace : Type := list Event.

(** ** Computations that may throw and that log their external calls *)

Inductive Outcome (A : Type) : Type :=
| Returned (a : A)
| Thrown (e : Error).
Arguments Returned {A} a.
Arguments Thrown {A} e.

Definition M (A : Type) : Type := World -> Trace -> Outcome A * Trace.

Definition ret {A} (a : A) : M A := fun _ tr => (Returned a, tr).

Definition bind {A B} (m : M A) (k : A -> M B) : M B :=
  fun w tr =>
    match m w tr with
    | (Returned a, tr') => k a w tr'
    | (Thrown e, tr') => (Thrown e, tr')
    end.

Definition throw {A} (e : Error) : M A := fun _ tr => (Thrown e, tr).

Definition try_catch {A} (body : M A) (handler : Error -> M A) : M A :=
  fun w tr =>
    match body w tr with
    | (Returned a, tr') => (Returned a, tr')
    | (Thrown e, tr') => handler e w tr'
    end.

Definition of_sum {A} (r : Error + A) : Outcome A :=
  match r with
  | inl e => Thrown e
  | inr a => Returned a
  end.

Declare Scope js_scope.
Delimit Scope js_scope with js.
Notation "x <- m ;; k" := (bind m (fun x => k))
  (at level 61, m at next level, right associativity) : js_scope.
Notation "' pat <- m ;; k" := (bind m (fun x => match x with pat => k end))
  (at level 61, pat pattern, m at next level, right associativity) : js_scope.
Open Scope js_scope.

Definition workspace_getConfiguration (section : str) : M Config :=
  fun w tr => (of_sum (getConfiguration w section), tr).

Definition execAsync (command : str) (cwd : option str) : M str :=
  fun w tr => (of_sum (exec w command cwd), tr ++ [Spawn command cwd]).

Definition anthropic_messages_create
    (client : ClientOptions) (params : MessageCreateParams)
    : M (list ContentBlock) :=
  fun w tr =>
    (of_sum (messages_create w client params), tr ++ [ApiRequest client params]).

(** Reading host state that no call can fail on. *)
Definition read {A} (f : World -> A) : M A := fun w tr => (Returned (f w), tr).

(** [vscode.workspace.workspaceFolders?.[0]?.uri.fsPath] *)
Definition firstWorkspaceFolder (w : World) : option str :=
  match workspaceFolders w with
  | Some (folder :: _) => Some folder
  | _ => None
  end.

(** Line 39: [repositoryPath || workspaceFolders?.[0]?.uri.fsPath]. *)
Definition resolveCwd (repositoryPath : option str) (w : World) : option str :=
  match repositoryPath with
  | Some p => if truthy p then Some p else firstWorkspaceFolder w
  | None => firstWorkspaceFolder w
  end.

(** ** CommitMessageGenerator *)

Definition configSection : str := lit "claude-code-ai-commit-message-button".

Record CommitMessageGenerator : Type := { anthropic : ClientOptions }.

(** constructor (lines 13-27) *)
Definition constructor : M CommitMessageGenerator :=
  config <- workspace_getConfiguration configSection ;;
  let anthropicConfig := {| baseURL := None; authToken := None |} in
  let anthropicConfig :=
    match cfg_baseUrl config with
    | Some u => if truthy u
                then {| baseURL := cfg_baseUrl config;
                        authToken := authToken anthropicConfig |}
                else anthropicConfig
    | None => anthropicConfig
    end in
  let anthropicConfig :=
    match cfg_authToken config with
    | Some t => if truthy t
                then {| baseURL := baseURL anthropicConfig;
                        authToken := cfg_authToken config |}
                else anthropicConfig
    | None => anthropicConfig
    end in
  ret {| anthropic := anthropicConfig |}.

(** Lines 42-54: the staged diff, else the unstaged one, else an error.
    Returns the final values of the variables [diff] and [isStaged]. *)
Definition collectDiff (cwd : option str) : M (str * bool) :=
  diff <- execAsync (lit "git diff --cached") cwd ;;
  let isStaged := true in
  '(diff, isStaged) <-
     (if negb (truthy (trim diff))
      then result <- execAsync (lit "git diff") cwd ;; ret (result, false)
      else ret (diff, isStaged)) ;;
  if negb (truthy (trim diff))
  then throw (mkError (lit "No changes found (staged or unstaged)"))
  else ret (diff, isStaged).

(** Line 60. *)
Definition customRulesText (customRules : list str) : str :=
  if (0 <? length customRules)%nat
  then lit "

Additional custom rules:
" ++ join (lit "
") (map (fun rule => lit "- " ++ rule) customRules)
  else [].

(** Lines 68-75: the template literal of the user message. *)
Definition userContent (fileType diff formatRules customRulesText : str) : str :=
  lit "write me a commit message for the " ++ fileType ++ lit ", do not commit

Git diff:
" ++ diff ++ lit "

" ++ formatRules ++ customRulesText ++ lit "
- Do not wrap the response in code blocks or backticks
- Return plain text only".

(** Lines 77-92. *)
Definition systemPrompt : list SystemBlock :=
  [ {| sys_type := lit "text";
       sys_text := lit "You are Claude Code, Anthropic's official CLI for Claude.";
       sys_cache_control := {| cache_type := lit "ephemeral" |} |};
    {| sys_type := lit "text";
       sys_text := lit "
You are an interactive CLI tool that helps users with software engineering tasks.";
       sys_cache_control := {| cache_type := lit "ephemeral" |} |} ].

(** Lines 95-96. *)
Definition extractText (response : list ContentBlock) : str :=
  let textContent :=
    find (fun block => strict_eq (block_type block) (lit "text")) response in
  match textContent with
  | Some block => block_text block
  | None => lit "Unable to generate commit message"
  end.

(** The [try] block of generateCommitMessage (lines 31-96). *)
Definition generateCommitMessage_try
    (this : CommitMessageGenerator) (repositoryPath : option str) : M str :=
  config <- workspace_getConfiguration configSection ;;
  let model := or_str (cfg_model config) (lit "claude-4-sonnet") in
  let maxTokens := or_num (cfg_maxTokens config) 200 in
  let customRules := or_arr (cfg_customRules config) [] in
  let commitFormat := or_str (cfg_commitFormat config) (lit "conventional") in
  let customTemplate := or_str (cfg_customTemplate config) [] in
  cwd <- read (resolveCwd repositoryPath) ;;
  '(diff, isStaged) <- collectDiff cwd ;;
  let fileType := if isStaged : bool then lit "staged files"
                  else lit "changed files" in
  let formatRules := getFormatRules commitFormat customTemplate in
  let customRulesText := customRulesText customRules in
  response <- anthropic_messages_create (anthropic this)
    {| model := model;
       max_tokens := maxTokens;
       messages :=
         [ {| role := lit "user";
              content := userContent fileType diff formatRules customRulesText |} ];
       system := systemPrompt |} ;;
  ret (extractText response).

(** generateCommitMessage (lines 29-100) *)
Definition generateCommitMessage
    (this : CommitMessageGenerator) (repositoryPath : option str) : M str :=
  try_catch (generateCommitMessage_try this repositoryPath)
    (fun error =>
       throw (mkError (lit "Failed to generate commit message: " ++ message error))).

(** ** The command handler (extension.ts, lines 141-218) *)

(** [String.prototype.startsWith] *)
Fixpoint startsWith (s searchString : str) {struct searchString} : bool :=
  match searchString, s with
  | [], _ => true
  | p :: ps, c :: cs => (c =? p)%N && startsWith cs ps
  | _ :: _, [] => false
  end.

(** A non-negative integer inside a template literal: its decimal digits. *)
Definition numberToString (n : nat) : str :=
  lit (DecimalString.NilEmpty.string_of_uint (Nat.to_uint n)).

(** The argument of the command: [uri.E?.fsPath] ([None] when [E] or its
    [fsPath] is missing) and [uri.path]. *)
Record Uri : Type := { uri_E_fsPath : option str; uri_path : str }.

(** An entry of [git.repositories], known by its [rootUri.fsPath]; its
    [inputBox] is addressed by the entry's index. *)
Record Repository : Type := { rootUri_fsPath : str }.

(** The editor around the generator. *)
Record Host : Type := {
  host_world : World;
  (* [vscode.extensions.getExtension('vscode.git')?.exports], and what
     [getAPI(1)] gives on it: it throws, or has these [repositories] *)
  git_exports : option (Error + list Repository);
  (* [showQuickPick(items)] by the labels shown: rejects, is dismissed
     ([None]) or picks the item at an index; an index past the end stands
     for a dismissal *)
  showQuickPick : list str -> Error + option nat
}.

(** What the handler does to the editor, with the generator's external
    calls in between. *)
Inductive HostEvent : Type :=
| External (e : Event)
| ConsoleLog (args : list str)
| ShowErrorMessage (text : str)
| ShowInformationMessage (text : str)
| ShowQuickPick (labels : list str) (placeHolder : str)
| WithProgress (title : str)
| SetInputBox (repository : nat) (value : str).

Definition H (A : Type) : Type :=
  Host -> list HostEvent -> Outcome A * list HostEvent.

Definition hret {A} (a : A) : H A := fun _ tr => (Returned a, tr).

Definition hbind {A B} (m : H A) (k : A -> H B) : H B :=
  fun h tr =>
    match m h tr with
    | (Returned a, tr') => k a h tr'
    | (Thrown e, tr') => (Thrown e, tr')
    end.

Definition hthrow {A} (e : Error) : H A := fun _ tr => (Thrown e, tr).

Definition htry {A} (body : H A) (handler : Error -> H A) : H A :=
  fun h tr =>
    match body h tr with
    | (Returned a, tr') => (Returned a, tr')
    | (Thrown e, tr') => handler e h tr'
    end.

Definition emit (e : HostEvent) : H unit := fun _ tr => (Returned tt, tr ++ [e]).

(** A computation of the generator, run inside the editor. *)
Definition lift {A} (m : M A) : H A :=
  fun h tr =>
    let (o, evs) := m (host_world h) [] in (o, tr ++ map External evs).

Declare Scope host_scope.
Delimit Scope host_scope with host.
Notation "x <- m ;; k" := (hbind m (fun x => k))
  (at level 61, m at next level, right associativity) : host_scope.
Open Scope host_scope.

Definition git_getAPI (exports : Error + list Repository) : H (list Repository) :=
  fun _ tr => (of_sum exports, tr).

Definition window_showQuickPick (labels : list str) (placeHolder : str)
    : H (option nat) :=
  fun h tr =>
    (of_sum (showQuickPick h labels), tr ++ [ShowQuickPick labels placeHolder]).

(** Lines 157-161: [git.repositories.find(repo => ...)], from [index] on. *)
Fixpoint findRepository (uri : Uri) (repositories : list Repository)
    (index : nat) : H (option (nat * Repository)) :=
  match repositories with
  | [] => hret None
  | repo :: rest =>
      let uriPath := or_str (uri_E_fsPath uri) (uri_path uri) in
      _ <- emit (ConsoleLog [lit "Comparing:"; uriPath; lit "with repo:";
                             rootUri_fsPath repo]) ;;
      if truthy uriPath && startsWith uriPath (rootUri_fsPath repo)
      then hret (Some (index, repo))
      else findRepository uri rest (S index)
  end.

(** Lines 165-167: [git.repositories.forEach((repo, index) => ...)]. *)
Fixpoint logRepositories (repositories : list Repository) (index : nat)
    : H unit :=
  match repositories with
  | [] => hret tt
  | repo :: rest =>
      _ <- emit (ConsoleLog [lit "  Repo " ++ numberToString index ++ lit ": "
                               ++ rootUri_fsPath repo]) ;;
      logRepositories rest (S index)
  end.

(** Lines 153-169: the value of [targetRepo] after the [if (uri)] block. *)
Definition repositoryOfUri (uri : option Uri) (repositories : list Repository)
    : H (option (nat * Repository)) :=
  match uri with
  | Some uri =>
      targetRepo <- findRepository uri repositories 0 ;;
      match targetRepo with
      | Some found => hret (Some found)
      | None =>
          _ <- emit (ConsoleLog
                       [lit "No matching repo found for URI, available repos:"]) ;;
          _ <- logRepositories repositories 0 ;;
          hret None
      end
  | None => hret None
  end.

(** Lines 171-198: [None] stands for the handler having returned. *)
Definition chooseRepository (targetRepo : option (nat * Repository))
    (repositories : list Repository) : H (option (nat * Repository)) :=
  match targetRepo with
  | Some found => hret (Some found)
  | None =>
      if (1 <? length repositories)%nat then
        let repoItems :=
          map (fun repo => (rootUri_fsPath repo, repo)) repositories in
        selected <- window_showQuickPick (map fst repoItems)
                      (lit "Select repository") ;;
        match selected with
        | Some i =>
            match nth_error repoItems i with
            | Some (_, repo) => hret (Some (i, repo))
            | None => hret None
            end
        | None => hret None
        end
      else if (length repositories =? 1)%nat then
        match repositories with
        | repo :: _ => hret (Some (0%nat, repo))
        | [] => hret None
        end
      else
        _ <- emit (ShowErrorMessage (lit "No Git repository found")) ;;
        hret None
  end.

(** The handler registered for
    [claude-code-ai-commit-message-button.createCommitMessage]. *)
Definition createCommitMessage (uri : option Uri) : H unit :=
  htry
    (generator <- lift constructor ;;
     fun h =>
       match git_exports h with
       | None =>
           emit (ShowErrorMessage (lit "Git extension not available")) h
       | Some gitExtension =>
           (repositories <- git_getAPI gitExtension ;;
            targetRepo <- repositoryOfUri uri repositories ;;
            targetRepo <- chooseRepository targetRepo repositories ;;
            match targetRepo with
            | None => hret tt
            | Some (index, targetRepo) =>
                _ <- emit (WithProgress (lit "Generating commit message...")) ;;
                commitMessage <-
                  lift (generateCommitMessage generator
                          (Some (rootUri_fsPath targetRepo))) ;;
                if truthy commitMessage then
                  _ <- emit (SetInputBox index commitMessage) ;;
                  emit (ShowInformationMessage
                          (lit "Commit message set for "
                             ++ rootUri_fsPath targetRepo ++ lit "!"))
                else hret tt
            end) h
       end)
    (fun error => emit (ShowErrorMessage (lit "Error: " ++ message error))).

Close Scope host_scope.

(** ** Vocabulary of the statements *)

(** [p] occurs in [s] as a contiguous run of code units. *)
Definition substring (p s : str) : Prop := exists a b, s = a ++ p ++ b.

(** The text before the first line feed: [s.split("\n")[0]]. *)
Fixpoint firstLine (s : str) : str :=
  match s with
  | [] => []
  | c :: s' => if (c =? LF)%N then [] else c :: firstLine s'
  end.

(** A string [trim] reduces to the empty string. *)
Definition blank (s : str) : Prop := trim s = [].

(** The request [generateCommitMessage] builds (lines 56-93) once the
    configuration [cfg] is read and [diff], [isStaged] are settled; lemma
    [generate_try_run] below shows it is the one the code sends. *)
Definition requestFor (cfg : Config) (diff : str) (isStaged : bool)
    : MessageCreateParams :=
  {| model := or_str (cfg_model cfg) (lit "claude-4-sonnet");
     max_tokens := or_num (cfg_maxTokens cfg) 200;
     messages :=
       [ {| role := lit "user";
            content :=
              userContent
                (if isStaged then lit "staged files" else lit "changed files")
                diff
                (getFormatRules
                   (or_str (cfg_commitFormat cfg) (lit "conventional"))
                   (or_str (cfg_customTemplate cfg) []))
                (customRulesText (or_arr (cfg_customRules cfg) [])) |} ];
     system := systemPrompt |}.

(** What the [catch] clause re-throws for a caught [e]. *)
Definition wrapped (e : Error) : Error :=
  mkError (lit "Failed to generate commit message: " ++ message e).

(** The failures that can occur inside the [try] block, by origin: reading
    the configuration, either git process, the explicit "no changes" throw,
    and the completion API. *)
Inductive Raised (w : World) (this : CommitMessageGenerator)
    (repositoryPath : option str) : Error -> Prop :=
| raised_by_configuration e :
    getConfiguration w configSection = inl e ->
    Raised w this repositoryPath e
| raised_by_staged_diff cfg e :
    getConfiguration w configSection = inr cfg ->
    exec w (lit "git diff --cached") (resolveCwd repositoryPath w) = inl e ->
    Raised w this repositoryPath e
| raised_by_unstaged_diff cfg staged e :
    getConfiguration w configSection = inr cfg ->
    exec w (lit "git diff --cached") (resolveCwd repositoryPath w) = inr staged ->
    blank staged ->
    exec w (lit "git diff") (resolveCwd repositoryPath w) = inl e ->
    Raised w this repositoryPath e
| raised_no_changes cfg staged unstaged :
    getConfiguration w configSection = inr cfg ->
    exec w (lit "git diff --cached") (resolveCwd repositoryPath w) = inr staged ->
    blank staged ->
    exec w (lit "git diff") (resolveCwd repositoryPath w) = inr unstaged ->
    blank unstaged ->
    Raised w this repositoryPath
      (mkError (lit "No changes found (staged or unstaged)"))
| raised_by_api_staged cfg staged e :
    getConfiguration w configSection = inr cfg ->
    exec w (lit "git diff --cached") (resolveCwd repositoryPath w) = inr staged ->
    ~ blank staged ->
    messages_create w (anthropic this) (requestFor cfg staged true) = inl e ->
    Raised w this repositoryPath e
| raised_by_api_unstaged cfg staged unstaged e :
    getConfiguration w configSection = inr cfg ->
    exec w (lit "git diff --cached") (resolveCwd repositoryPath w) = inr staged ->
    blank staged ->
    exec w (lit "git diff") (resolveCwd repositoryPath w) = inr unstaged ->
    ~ blank unstaged ->
    messages_create w (anthropic this) (requestFor cfg unstaged false) = inl e ->
    Raised w this repositoryPath e.

(** The custom-rules block as the specification words it: a blank line, a
    header line, then one "- rule" line per rule. *)
Definition customRulesBlock (rules : list str) : str :=
  match rules with
  | [] => []
  | _ :: _ =>
      [LF] ++ [LF] ++ lit "Additional custom rules:"
      ++ concat (map (fun rule => [LF] ++ lit "- " ++ rule) rules)
  end.

(** A configuration in which every falsy value is replaced by [undefined]. *)
Definition unsetFalsyStr (a : option str) : option str :=
  match a with
  | Some s => if truthy s then Some s else None
  | None => None
  end.

Definition dropFalsy (cfg : Config) : Config :=
  {| cfg_baseUrl := unsetFalsyStr (cfg_baseUrl cfg);
     cfg_authToken := unsetFalsyStr (cfg_authToken cfg);
     cfg_model := unsetFalsyStr (cfg_model cfg);
     cfg_maxTokens :=
       match cfg_maxTokens cfg with
       | Some n => if (n =? 0)%Z then None else Some n
       | None => None
       end;
     cfg_customRules :=
       match cfg_customRules cfg with
       | Some (r :: rs) => Some (r :: rs)
       | _ => None
       end;
     cfg_commitFormat := unsetFalsyStr (cfg_commitFormat cfg);
     cfg_customTemplate := unsetFalsyStr (cfg_customTemplate cfg) |}.

(** The world [w] with its configuration replaced by [cfg]. *)
Definition withConfig (w : World) (cfg : Config) : World :=
  {| getConfiguration := fun _ => inr cfg;
     workspaceFolders := workspaceFolders w;
     exec := exec w;
     messages_create := messages_create w |}.

(** ** Concrete hosts used to exercise the statements *)

Definition unsetConfig : Config :=
  {| cfg_baseUrl := None; cfg_authToken := None; cfg_model := None;
     cfg_maxTokens := None; cfg_customRules := None;
     cfg_commitFormat := None; cfg_customTemplate := None |}.

Definition falsyConfig : Config :=
  {| cfg_baseUrl := Some []; cfg_authToken := Some []; cfg_model := Some [];
     cfg_maxTokens := Some 0%Z; cfg_customRules := Some [];
     cfg_commitFormat := Some []; cfg_customTemplate := Some [] |}.

Definition rulesConfig : Config :=
  {| cfg_baseUrl := None; cfg_authToken := None; cfg_model := None;
     cfg_maxTokens := None;
     cfg_customRules := Some [lit "use present tense"; lit "mention ticket id"];
     cfg_commitFormat := None; cfg_customTemplate := None |}.

Definition plainGenerator : CommitMessageGenerator :=
  {| anthropic := {| baseURL := None; authToken := None |} |}.

(** A host with one workspace folder whose git commands and API answer as
    scripted. *)
Definition scripted (cfg : Error + Config) (staged unstaged : Error + str)
    (reply : Error + list ContentBlock) : World :=
  {| getConfiguration := fun _ => cfg;
     workspaceFolders := Some [lit "/repo"];
     exec := fun command _ =>
       if strict_eq command (lit "git diff --cached") then staged else unstaged;
     messages_create := fun _ _ => reply |}.

Definition sampleDiff : str := lit "diff --git a/x b/x
+foo".

(** ** Vocabulary for the command handler *)

(** The generator the constructor builds when the configuration is [cfg]. *)
Definition generatorOf (cfg : Config) : CommitMessageGenerator :=
  {| anthropic := {| baseURL := unsetFalsyStr (cfg_baseUrl cfg);
                     authToken := unsetFalsyStr (cfg_authToken cfg) |} |}.

(** The path the handler compares with repository roots (line 158). *)
Definition uriPathOf (uri : Uri) : str :=
  or_str (uri_E_fsPath uri) (uri_path uri).

(** The callback of [find] (line 160) as a truth value. *)
Definition matchesRepo (uri : Uri) (repo : Repository) : bool :=
  truthy (uriPathOf uri) && startsWith (uriPathOf uri) (rootUri_fsPath repo).

(** No repository is selected by the argument: there is none, or no root
    matches it. *)
Definition unmatched (uri : option Uri) (repositories : list Repository) : Prop :=
  match uri with
  | Some u => forall r, In r repositories -> matchesRepo u r = false
  | None => True
  end.

(** The console line written for each repository [find] visits. *)
Definition comparing (uri : Uri) (repo : Repository) : HostEvent :=
  ConsoleLog [lit "Comparing:"; uriPathOf uri; lit "with repo:";
              rootUri_fsPath repo].

(** The console lines the [forEach] of lines 165-167 writes. *)
Fixpoint repoLines (repositories : list Repository) (index : nat)
    : list HostEvent :=
  match repositories with
  | [] => []
  | repo :: rest =>
      ConsoleLog [lit "  Repo " ++ numberToString index ++ lit ": "
                    ++ rootUri_fsPath repo]
      :: repoLines rest (S index)
  end.

(** Everything the handler logs while an argument matches no repository. *)
Definition unmatchedLog (uri : option Uri) (repositories : list Repository)
    : list HostEvent :=
  match uri with
  | Some u =>
      map (comparing u) repositories
      ++ [ConsoleLog [lit "No matching repo found for URI, available repos:"]]
      ++ repoLines repositories 0
  | None => []
  end.

(** Lines 153-198 in one piece: the repository the handler goes on with. *)
Definition selectRepository (uri : option Uri) (repositories : list Repository)
    : H (option (nat * Repository)) :=
  hbind (repositoryOfUri uri repositories)
        (fun targetRepo => chooseRepository targetRepo repositories).

(** Console lines and the quick pick: events that change nothing. *)
Definition quiet (e : HostEvent) : Prop :=
  match e with
  | ConsoleLog _ | ShowQuickPick _ _ => True
  | _ => False
  end.

(** Events that tell the user no result: everything but a message shown
    and an input box written. *)
Definition calm (e : HostEvent) : Prop :=
  match e with
  | ShowErrorMessage _ | ShowInformationMessage _ | SetInputBox _ _ => False
  | _ => True
  end.

(** What the handler does after the generator ran for [repo]. *)
Definition conclusion (index : nat) (repo : Repository) (result : Outcome str)
    : list HostEvent :=
  match result with
  | Thrown e => [ShowErrorMessage (lit "Error: " ++ message e)]
  | Returned commitMessage =>
      if truthy commitMessage
      then [SetInputBox index commitMessage;
            ShowInformationMessage
              (lit "Commit message set for " ++ rootUri_fsPath repo ++ lit "!")]
      else []
  end.

(** An editor around a scripted world. *)
Definition editor (w : World) (repositories : list Repository)
    (pick : Error + option nat) : Host :=
  {| host_world := w;
     git_exports := Some (inr repositories);
     showQuickPick := fun _ => pick |}.

Definition repoAt (root : string) : Repository :=
  {| rootUri_fsPath := lit root |}.

Definition fileUri (path : string) : Uri :=
  {| uri_E_fsPath := None; uri_path := lit path |}.

(** ** JavaScript string facts *)

Lemma strict_eq_true (a b : str) : strict_eq a b = true <-> a = b.
Proof.
  unfold strict_eq. destruct (str_eq_dec a b); split; congruence.
Qed.

Lemma strict_eq_false (a b : str) : strict_eq a b = false <-> a <> b.
Proof.
  unfold strict_eq. destruct (str_eq_dec a b); split; congruence.
Qed.

Lemma strict_eq_refl (a : str) : strict_eq a a = true.
Proof. now apply strict_eq_true. Qed.

Lemma truthy_false (s : str) : truthy s = false <-> s = [].
Proof. destruct s; simpl; split; congruence. Qed.

Lemma truthy_true (s : str) : truthy s = true <-> s <> [].
Proof. destruct s; simpl; split; congruence. Qed.

Lemma trimStart_nil_iff (s : str) :
  trimStart s = [] <-> forallb isWhiteSpace s = true.
Proof.
  induction s as [|c s IH]; simpl.
  - tauto.
  - destruct (isWhiteSpace c); simpl.
    + exact IH.
    + split; discriminate.
Qed.

Lemma trimStart_all_white (s : str) :
  forallb isWhiteSpace s = true -> trimStart s = [].
Proof. apply trimStart_nil_iff. Qed.

Lemma trimStart_suffix (s : str) :
  exists pre, s = pre ++ trimStart s /\ forallb isWhiteSpace pre = true.
Proof.
  induction s as [|c s [pre [E W]]]; simpl.
  - exists []. now split.
  - destruct (isWhiteSpace c) eqn:Hc.
    + exists (c :: pre). simpl. rewrite Hc, W. split; [now f_equal | reflexivity].
    + exists []. now split.
Qed.

(** [trim] yields the empty string exactly on strings made of white space
    and line terminators only. *)
Lemma blank_iff (s : str) : blank s <-> forallb isWhiteSpace s = true.
Proof.
  unfold blank, trim, trimEnd. split.
  - intros H.
    assert (Hr : trimStart (rev (trimStart s)) = []).
    { apply (f_equal (@rev _)) in H. rewrite rev_involutive in H. exact H. }
    apply trimStart_nil_iff in Hr. rewrite forallb_forall in Hr.
    destruct (trimStart_suffix s) as [pre [E W]].
    rewrite E, forallb_app, W. simpl.
    apply forallb_forall. intros x Hx. apply Hr. now apply in_rev in Hx.
  - intros H. rewrite (trimStart_all_white s H). reflexivity.
Qed.

Example trim_strips_both_ends :
  trim (lit "
   diff a b
 ") = lit "diff a b".
Proof. reflexivity. Qed.

Example unicode_spaces_are_blank : blank [9; 160; 8232; 12288; 65279]%N.
Proof. reflexivity. Qed.

Example join_two : join [LF] [lit "a"; lit "b"] = lit "a
b".
Proof. reflexivity. Qed.

(** ** getFormatRules *)

Lemma getFormatRules_conventional (t : str) :
  getFormatRules (lit "conventional") t =
  lit "Rules:
- Use conventional commit format
- Keep under 72 characters for the first line
- Be specific and clear
- Common types: feat, fix, docs, style, refactor, test, chore".
Proof. reflexivity. Qed.

(** C2, as stated, fails: with an empty template the [custom] branch returns
    a block that lacks the last line of the conventional one. *)
Lemma custom_empty_differs_from_conventional :
  getFormatRules (lit "custom") [] <> getFormatRules (lit "conventional") [].
Proof.
  intros H. apply (f_equal (@length _)) in H. vm_compute in H. discriminate.
Qed.

(** C2 (amended): with an empty template, [custom] yields the conventional
    block without its final "- Common types: ..." line; appending that line
    gives back [getFormatRules "conventional" ""]. *)
Theorem custom_empty_is_conventional_prefix :
  getFormatRules (lit "custom") [] =
    lit "Rules:
- Use conventional commit format
- Keep under 72 characters for the first line
- Be specific and clear"
  /\ getFormatRules (lit "conventional") [] =
       getFormatRules (lit "custom") [] ++ lit "
- Common types: feat, fix, docs, style, refactor, test, chore".
Proof. split; reflexivity. Qed.

(** C5: a commitFormat outside conventional / angular / custom takes the
    [default] branch, whose block is the conventional one, whatever the
    template. *)
Theorem unrecognized_format_is_conventional (x t : str) :
  x <> lit "conventional" -> x <> lit "angular" -> x <> lit "custom" ->
  getFormatRules x t = getFormatRules (lit "conventional") t.
Proof.
  intros Hc Ha Hu. rewrite getFormatRules_conventional.
  unfold getFormatRules.
  apply strict_eq_false in Hc, Ha, Hu. now rewrite Hc, Ha, Hu.
Qed.

Lemma unrecognized_format_is_conventional_witness :
  getFormatRules (lit "gitmoji") (lit "<emoji> <subject>") =
  getFormatRules (lit "conventional") (lit "<emoji> <subject>").
Proof.
  apply unrecognized_format_is_conventional; intros H; vm_compute in H; discriminate.
Defined.

(** C6: the angular block is one constant string, the same for every
    customTemplate; [getFormatRules] is a function of its two arguments
    only (it lives outside the effect type [M]). *)
Theorem angular_ignores_template (t1 t2 : str) :
  getFormatRules (lit "angular") t1 = getFormatRules (lit "angular") t2
  /\ getFormatRules (lit "angular") t1 =
     lit "Rules:
- Use Angular commit format: <type>(<scope>): <description>
- Types: build, ci, docs, feat, fix, perf, refactor, style, test
- Keep under 100 characters for the first line
- Use imperative mood".
Proof. split; reflexivity. Qed.

(** ** Running the generator *)

Lemma not_blank_truthy (s : str) : ~ blank s -> truthy (trim s) = true.
Proof. unfold blank. intros H. now apply truthy_true. Qed.

Lemma blank_not_truthy (s : str) : blank s -> truthy (trim s) = false.
Proof. unfold blank. intros H. now apply truthy_false. Qed.

(** One step of symbolic execution: unfold the monad and reduce. *)
Ltac run :=
  cbv beta iota zeta
      delta [bind ret throw read try_catch of_sum negb execAsync
             workspace_getConfiguration anthropic_messages_create].

Lemma collectDiff_staged (w : World) (cwd : option str) (tr : Trace) (staged : str) :
  exec w (lit "git diff --cached") cwd = inr staged ->
  ~ blank staged ->
  collectDiff cwd w tr =
    (Returned (staged, true), tr ++ [Spawn (lit "git diff --cached") cwd]).
Proof.
  intros Hs Hn. unfold collectDiff. run.
  rewrite Hs. run. rewrite (not_blank_truthy _ Hn). run.
  rewrite (not_blank_truthy _ Hn). reflexivity.
Qed.

Lemma collectDiff_unstaged (w : World) (cwd : option str) (tr : Trace)
    (staged unstaged : str) :
  exec w (lit "git diff --cached") cwd = inr staged ->
  blank staged ->
  exec w (lit "git diff") cwd = inr unstaged ->
  ~ blank unstaged ->
  collectDiff cwd w tr =
    (Returned (unstaged, false),
     tr ++ [Spawn (lit "git diff --cached") cwd; Spawn (lit "git diff") cwd]).
Proof.
  intros Hs Hb Hu Hn. unfold collectDiff. run.
  rewrite Hs. run. rewrite (blank_not_truthy _ Hb). run.
  rewrite Hu. run. rewrite (not_blank_truthy _ Hn). run.
  now rewrite <- app_assoc.
Qed.

Lemma collectDiff_no_changes (w : World) (cwd : option str) (tr : Trace)
    (staged unstaged : str) :
  exec w (lit "git diff --cached") cwd = inr staged ->
  blank staged ->
  exec w (lit "git diff") cwd = inr unstaged ->
  blank unstaged ->
  collectDiff cwd w tr =
    (Thrown (mkError (lit "No changes found (staged or unstaged)")),
     tr ++ [Spawn (lit "git diff --cached") cwd; Spawn (lit "git diff") cwd]).
Proof.
  intros Hs Hb Hu Hn. unfold collectDiff. run.
  rewrite Hs. run. rewrite (blank_not_truthy _ Hb). run.
  rewrite Hu. run. rewrite (blank_not_truthy _ Hn). run.
  now rewrite <- app_assoc.
Qed.

Lemma collectDiff_staged_fails (w : World) (cwd : option str) (tr : Trace) (e : Error) :
  exec w (lit "git diff --cached") cwd = inl e ->
  collectDiff cwd w tr = (Thrown e, tr ++ [Spawn (lit "git diff --cached") cwd]).
Proof.
  intros Hs. unfold collectDiff. run. rewrite Hs. reflexivity.
Qed.

Lemma collectDiff_unstaged_fails (w : World) (cwd : option str) (tr : Trace)
    (staged : str) (e : Error) :
  exec w (lit "git diff --cached") cwd = inr staged ->
  blank staged ->
  exec w (lit "git diff") cwd = inl e ->
  collectDiff cwd w tr =
    (Thrown e,
     tr ++ [Spawn (lit "git diff --cached") cwd; Spawn (lit "git diff") cwd]).
Proof.
  intros Hs Hb Hu. unfold collectDiff. run.
  rewrite Hs. run. rewrite (blank_not_truthy _ Hb). run.
  rewrite Hu. run. now rewrite <- app_assoc.
Qed.

Lemma blank_dec (s : str) : {blank s} + {~ blank s}.
Proof. unfold blank. apply str_eq_dec. Defined.

(** C1: the diff-collection step (lines 42-54), run in any working
    directory.  A non-blank staged output is returned with [isStaged = true]
    after a single process ([git diff] is not run); otherwise a non-blank
    unstaged output is returned with [isStaged = false]; otherwise the step
    throws "No changes found (staged or unstaged)". *)
Theorem diff_collection_cases
    (w : World) (cwd : option str) (tr : Trace) (staged : str) :
  exec w (lit "git diff --cached") cwd = inr staged ->
  (~ blank staged ->
     collectDiff cwd w tr =
       (Returned (staged, true), tr ++ [Spawn (lit "git diff --cached") cwd]))
  /\ (blank staged ->
      forall unstaged, exec w (lit "git diff") cwd = inr unstaged ->
        (~ blank unstaged ->
           collectDiff cwd w tr =
             (Returned (unstaged, false),
              tr ++ [Spawn (lit "git diff --cached") cwd;
                     Spawn (lit "git diff") cwd]))
        /\ (blank unstaged ->
            collectDiff cwd w tr =
              (Thrown (mkError (lit "No changes found (staged or unstaged)")),
               tr ++ [Spawn (lit "git diff --cached") cwd;
                      Spawn (lit "git diff") cwd]))).
Proof.
  intros Hs. split.
  - now apply collectDiff_staged.
  - intros Hb unstaged Hu. split; intros Hn.
    + now apply collectDiff_unstaged with (staged := staged).
    + now apply collectDiff_no_changes with (staged := staged) (unstaged := unstaged).
Qed.

Lemma diff_collection_cases_witness :
  collectDiff (Some (lit "/repo"))
    (scripted (inr unsetConfig) (inr sampleDiff) (inl (mkError (lit "not run")))
       (inr []))
    [] =
  (Returned (sampleDiff, true),
   [Spawn (lit "git diff --cached") (Some (lit "/repo"))]).
Proof.
  apply (proj1 (diff_collection_cases
                  (scripted (inr unsetConfig) (inr sampleDiff)
                     (inl (mkError (lit "not run"))) (inr []))
                  (Some (lit "/repo")) [] sampleDiff eq_refl)).
  unfold blank. vm_compute. discriminate.
Defined.

Lemma generate_try_run (w : World) (this : CommitMessageGenerator)
    (path : option str) (tr : Trace) (cfg : Config) :
  getConfiguration w configSection = inr cfg ->
  generateCommitMessage_try this path w tr =
    match collectDiff (resolveCwd path w) w tr with
    | (Returned (diff, isStaged), tr1) =>
        (match messages_create w (anthropic this) (requestFor cfg diff isStaged) with
         | inl e => Thrown e
         | inr response => Returned (extractText response)
         end,
         tr1 ++ [ApiRequest (anthropic this) (requestFor cfg diff isStaged)])
    | (Thrown e, tr1) => (Thrown e, tr1)
    end.
Proof.
  intros Hc. unfold generateCommitMessage_try. run. rewrite Hc. run.
  destruct (collectDiff (resolveCwd path w) w tr) as [[[diff isStaged]|e] tr1];
    [|reflexivity].
  fold (requestFor cfg diff isStaged).
  now destruct (messages_create w (anthropic this) (requestFor cfg diff isStaged)).
Qed.

Lemma generate_try_config_fails (w : World) (this : CommitMessageGenerator)
    (path : option str) (tr : Trace) (e : Error) :
  getConfiguration w configSection = inl e ->
  generateCommitMessage_try this path w tr = (Thrown e, tr).
Proof.
  intros Hc. unfold generateCommitMessage_try. run. now rewrite Hc.
Qed.

Lemma generate_run (w : World) (this : CommitMessageGenerator)
    (path : option str) (tr : Trace) :
  generateCommitMessage this path w tr =
    match generateCommitMessage_try this path w tr with
    | (Returned a, tr1) => (Returned a, tr1)
    | (Thrown e, tr1) => (Thrown (wrapped e), tr1)
    end.
Proof. reflexivity. Qed.

(** Once a diff is collected, the generator issues exactly one API request,
    [requestFor cfg diff isStaged], and answers from its reply. *)
Lemma generate_sends (w : World) (this : CommitMessageGenerator)
    (path : option str) (tr tr1 : Trace) (cfg : Config)
    (diff : str) (isStaged : bool) :
  getConfiguration w configSection = inr cfg ->
  collectDiff (resolveCwd path w) w tr = (Returned (diff, isStaged), tr1) ->
  generateCommitMessage this path w tr =
    (match messages_create w (anthropic this) (requestFor cfg diff isStaged) with
     | inl e => Thrown (wrapped e)
     | inr response => Returned (extractText response)
     end,
     tr1 ++ [ApiRequest (anthropic this) (requestFor cfg diff isStaged)]).
Proof.
  intros Hc Hd. rewrite generate_run, (generate_try_run w this path tr cfg Hc), Hd.
  now destruct (messages_create w (anthropic this) (requestFor cfg diff isStaged)).
Qed.

Lemma firstLine_app (a b : str) :
  forallb (fun c => negb (c =? LF)%N) a = true ->
  firstLine (a ++ LF :: b) = a.
Proof.
  induction a as [|c a IH]; simpl.
  - reflexivity.
  - intros H. apply andb_true_iff in H. destruct H as [Hc Ha].
    apply negb_true_iff in Hc. rewrite Hc. now rewrite IH.
Qed.

Lemma userContent_layout (fileType diff formatRules rulesText : str) :
  userContent fileType diff formatRules rulesText =
    (lit "write me a commit message for the " ++ fileType
       ++ lit ", do not commit")
    ++ [LF] ++ [LF]
    ++ lit "Git diff:" ++ [LF]
    ++ diff ++ [LF] ++ [LF]
    ++ formatRules ++ rulesText ++ [LF]
    ++ lit "- Do not wrap the response in code blocks or backticks" ++ [LF]
    ++ lit "- Return plain text only".
Proof.
  unfold userContent. rewrite <- !app_assoc. reflexivity.
Qed.

(** C3: the user message of the request is, in this order, the instruction
    line naming the diff source, a blank line, the "Git diff:" header, the
    diff text, a blank line, the format-rule block, the custom-rules block
    (empty when there are no rules) and the two fixed constraint lines; for a
    staged diff its first line is "write me a commit message for the staged
    files, do not commit", and the diff text occurs in it verbatim. *)
Theorem user_message_layout
    (w : World) (this : CommitMessageGenerator) (path : option str)
    (tr tr1 : Trace) (cfg : Config) (diff : str) (isStaged : bool) :
  getConfiguration w configSection = inr cfg ->
  collectDiff (resolveCwd path w) w tr = (Returned (diff, isStaged), tr1) ->
  exists params text,
    snd (generateCommitMessage this path w tr) =
      tr1 ++ [ApiRequest (anthropic this) params]
    /\ messages params = [ {| role := lit "user"; content := text |} ]
    /\ text =
         (lit "write me a commit message for the "
            ++ (if isStaged then lit "staged files" else lit "changed files")
            ++ lit ", do not commit")
         ++ [LF] ++ [LF]
         ++ lit "Git diff:" ++ [LF]
         ++ diff ++ [LF] ++ [LF]
         ++ getFormatRules
              (or_str (cfg_commitFormat cfg) (lit "conventional"))
              (or_str (cfg_customTemplate cfg) [])
         ++ customRulesText (or_arr (cfg_customRules cfg) []) ++ [LF]
         ++ lit "- Do not wrap the response in code blocks or backticks" ++ [LF]
         ++ lit "- Return plain text only"
    /\ (isStaged = true ->
        firstLine text =
          lit "write me a commit message for the staged files, do not commit")
    /\ substring diff text.
Proof.
  intros Hc Hd.
  eexists (requestFor cfg diff isStaged), _.
  split; [now rewrite (generate_sends w this path tr tr1 cfg diff isStaged Hc Hd)|].
  split; [reflexivity|].
  split; [apply userContent_layout|].
  split.
  - intros ->. rewrite userContent_layout.
    change ([LF] ++ [LF] ++ ?r) with (LF :: [LF] ++ r).
    now apply firstLine_app.
  - unfold substring, userContent.
    exists (lit "write me a commit message for the "
              ++ (if isStaged then lit "staged files" else lit "changed files")
              ++ lit ", do not commit

Git diff:
").
    eexists. rewrite <- !app_assoc. reflexivity.
Qed.

Lemma user_message_layout_witness :
  exists params text,
    snd (generateCommitMessage plainGenerator None
           (scripted (inr unsetConfig) (inr sampleDiff) (inr []) (inr [])) []) =
      [Spawn (lit "git diff --cached") (Some (lit "/repo"))]
        ++ [ApiRequest (anthropic plainGenerator) params]
    /\ messages params = [ {| role := lit "user"; content := text |} ]
    /\ firstLine text =
         lit "write me a commit message for the staged files, do not commit"
    /\ substring sampleDiff text.
Proof.
  destruct (user_message_layout
              (scripted (inr unsetConfig) (inr sampleDiff) (inr []) (inr []))
              plainGenerator None []
              [Spawn (lit "git diff --cached") (Some (lit "/repo"))]
              unsetConfig sampleDiff true eq_refl eq_refl)
    as [params [text [Ht [Hm [_ [Hf Hs]]]]]].
  exists params, text. repeat split; auto.
Defined.

(** What a successful diff collection tells about the host. *)
Lemma collectDiff_inv (w : World) (cwd : option str) (tr tr1 : Trace)
    (diff : str) (isStaged : bool) :
  collectDiff cwd w tr = (Returned (diff, isStaged), tr1) ->
  ~ blank diff
  /\ exec w (if isStaged then lit "git diff --cached" else lit "git diff") cwd
     = inr diff
  /\ (isStaged = false ->
      exists staged,
        exec w (lit "git diff --cached") cwd = inr staged /\ blank staged).
Proof.
  intros H.
  destruct (exec w (lit "git diff --cached") cwd) as [e|staged] eqn:Hs.
  - rewrite (collectDiff_staged_fails w cwd tr e Hs) in H. discriminate.
  - destruct (blank_dec staged) as [Hb|Hn].
    + destruct (exec w (lit "git diff") cwd) as [e|unstaged] eqn:Hu.
      * rewrite (collectDiff_unstaged_fails w cwd tr staged e Hs Hb Hu) in H.
        discriminate.
      * destruct (blank_dec unstaged) as [Hb'|Hn'].
        -- rewrite (collectDiff_no_changes w cwd tr staged unstaged Hs Hb Hu Hb') in H.
           discriminate.
        -- rewrite (collectDiff_unstaged w cwd tr staged unstaged Hs Hb Hu Hn') in H.
           injection H as <- <- <-. repeat split; auto.
           intros _. now exists staged.
    + rewrite (collectDiff_staged w cwd tr staged Hs Hn) in H.
      injection H as <- <- <-. repeat split; auto. discriminate.
Qed.

(** C10: the diff placed in the user message is the stdout of the selected
    git command exactly as the process produced it; [trim] only decides
    emptiness, so white space around a non-blank diff reaches the prompt
    (the message differs from the one a trimmed diff would give). *)
Theorem diff_embedded_untrimmed
    (w : World) (this : CommitMessageGenerator) (path : option str)
    (tr tr1 : Trace) (cfg : Config) (diff : str) (isStaged : bool) :
  getConfiguration w configSection = inr cfg ->
  collectDiff (resolveCwd path w) w tr = (Returned (diff, isStaged), tr1) ->
  exec w (if isStaged then lit "git diff --cached" else lit "git diff")
       (resolveCwd path w) = inr diff
  /\ exists params text before after,
       snd (generateCommitMessage this path w tr) =
         tr1 ++ [ApiRequest (anthropic this) params]
       /\ messages params = [ {| role := lit "user"; content := text |} ]
       /\ before =
            lit "write me a commit message for the "
              ++ (if isStaged then lit "staged files" else lit "changed files")
              ++ lit ", do not commit

Git diff:
"
       /\ firstn 2 after = [LF; LF]
       /\ text = before ++ diff ++ after
       /\ (trim diff <> diff -> text <> before ++ trim diff ++ after).
Proof.
  intros Hc Hd.
  destruct (collectDiff_inv _ _ _ _ _ _ Hd) as [_ [Hx _]].
  split; [exact Hx|].
  exists (requestFor cfg diff isStaged).
  eexists. eexists. eexists.
  split; [now rewrite (generate_sends w this path tr tr1 cfg diff isStaged Hc Hd)|].
  split; [reflexivity|].
  split; [reflexivity|].
  assert (E : forall d,
             userContent
               (if isStaged then lit "staged files" else lit "changed files") d
               (getFormatRules
                  (or_str (cfg_commitFormat cfg) (lit "conventional"))
                  (or_str (cfg_customTemplate cfg) []))
               (customRulesText (or_arr (cfg_customRules cfg) []))
             = (lit "write me a commit message for the "
                  ++ (if isStaged then lit "staged files" else lit "changed files")
                  ++ lit ", do not commit

Git diff:
") ++ d ++ [LF; LF]
                 ++ getFormatRules
                      (or_str (cfg_commitFormat cfg) (lit "conventional"))
                      (or_str (cfg_customTemplate cfg) [])
                 ++ customRulesText (or_arr (cfg_customRules cfg) [])
                 ++ lit "
- Do not wrap the response in code blocks or backticks
- Return plain text only").
  { intros d. unfold userContent. rewrite <- !app_assoc. reflexivity. }
  split; [|split].
  2: { cbn [content]. apply E. }
  - reflexivity.
  - intros Hne Heq. cbn [content] in Heq. rewrite E in Heq.
    apply app_inv_head in Heq. apply app_inv_tail in Heq. congruence.
Qed.

Lemma diff_embedded_untrimmed_witness :
  exists params text before after,
    snd (generateCommitMessage plainGenerator None
           (scripted (inr unsetConfig) (inr (lit "  "))
              (inr (lit " + foo
")) (inr [])) []) =
      [Spawn (lit "git diff --cached") (Some (lit "/repo"));
       Spawn (lit "git diff") (Some (lit "/repo"))]
        ++ [ApiRequest (anthropic plainGenerator) params]
    /\ messages params = [ {| role := lit "user"; content := text |} ]
    /\ text = before ++ lit " + foo
" ++ after
    /\ firstn 2 after = [LF; LF]
    /\ text <> before ++ lit "+ foo" ++ after.
Proof.
  destruct (diff_embedded_untrimmed
              (scripted (inr unsetConfig) (inr (lit "  "))
                 (inr (lit " + foo
")) (inr []))
              plainGenerator None []
              [Spawn (lit "git diff --cached") (Some (lit "/repo"));
               Spawn (lit "git diff") (Some (lit "/repo"))]
              unsetConfig (lit " + foo
") false eq_refl eq_refl)
    as [_ [params [text [before [after [Ht [Hm [_ [Ha [He Hn]]]]]]]]]].
  exists params, text, before, after. repeat split; auto.
  apply Hn. vm_compute. discriminate.
Defined.

(** ** The custom-rules block *)

Lemma join_bullets (rule : str) (rules : list str) :
  [LF] ++ join [LF] (map (fun r => lit "- " ++ r) (rule :: rules)) =
  concat (map (fun r => [LF] ++ lit "- " ++ r) (rule :: rules)).
Proof.
  revert rule. induction rules as [|r rules IH]; intros rule.
  - cbn [map join concat]. now rewrite app_nil_r.
  - change (join [LF] (map (fun r0 => lit "- " ++ r0) (rule :: r :: rules)))
      with ((lit "- " ++ rule)
              ++ [LF] ++ join [LF] (map (fun r0 => lit "- " ++ r0) (r :: rules))).
    rewrite IH. cbn [map concat]. now rewrite <- !app_assoc.
Qed.

Lemma customRulesText_block (rules : list str) :
  customRulesText rules = customRulesBlock rules.
Proof.
  destruct rules as [|rule rules]; [reflexivity|].
  unfold customRulesText, customRulesBlock. cbn [length Nat.ltb Nat.leb].
  rewrite <- join_bullets.
  change (lit "
") with [LF].
  reflexivity.
Qed.

(** C8: with a non-empty customRules list the user message carries, between
    the format-rule block and the two constraint lines, a blank line, the
    header line "Additional custom rules:" and one line "- " + rule per
    rule, in input order (the bullet lines joined by line feeds); with an
    empty list that block is the empty string. *)
Theorem custom_rules_block
    (w : World) (this : CommitMessageGenerator) (path : option str)
    (tr tr1 : Trace) (cfg : Config) (diff : str) (isStaged : bool) :
  getConfiguration w configSection = inr cfg ->
  collectDiff (resolveCwd path w) w tr = (Returned (diff, isStaged), tr1) ->
  let rules := or_arr (cfg_customRules cfg) [] in
  let block :=
    match rules with
    | [] => []
    | _ :: _ =>
        [LF] ++ [LF] ++ lit "Additional custom rules:"
        ++ concat (map (fun rule => [LF] ++ lit "- " ++ rule) rules)
    end in
  exists params text before,
    snd (generateCommitMessage this path w tr) =
      tr1 ++ [ApiRequest (anthropic this) params]
    /\ messages params = [ {| role := lit "user"; content := text |} ]
    /\ text = before ++ block ++ lit "
- Do not wrap the response in code blocks or backticks
- Return plain text only"
    /\ (exists head,
          before = head ++ getFormatRules
                     (or_str (cfg_commitFormat cfg) (lit "conventional"))
                     (or_str (cfg_customTemplate cfg) []))
    /\ (rules <> [] ->
        block = [LF] ++ [LF] ++ lit "Additional custom rules:" ++ [LF]
                ++ join [LF] (map (fun rule => lit "- " ++ rule) rules))
    /\ (rules = [] -> block = []).
Proof.
  intros Hc Hd rules block.
  assert (Hb : customRulesText rules = block).
  { rewrite customRulesText_block. reflexivity. }
  exists (requestFor cfg diff isStaged).
  eexists.
  exists ((lit "write me a commit message for the "
             ++ (if isStaged then lit "staged files" else lit "changed files")
             ++ lit ", do not commit

Git diff:
" ++ diff ++ lit "

") ++ getFormatRules
        (or_str (cfg_commitFormat cfg) (lit "conventional"))
        (or_str (cfg_customTemplate cfg) [])).
  split; [now rewrite (generate_sends w this path tr tr1 cfg diff isStaged Hc Hd)|].
  split; [reflexivity|].
  split; [|split; [|split]].
  - cbn [content]. fold rules. rewrite Hb. unfold userContent.
    rewrite <- !app_assoc. reflexivity.
  - eexists. reflexivity.
  - intros Hne. subst block. destruct rules as [|rule rest]; [congruence|].
    rewrite <- join_bullets. reflexivity.
  - intros He. subst block. now rewrite He.
Qed.

Lemma custom_rules_block_witness :
  exists params text before,
    snd (generateCommitMessage plainGenerator None
           (scripted (inr rulesConfig) (inr sampleDiff) (inr []) (inr [])) []) =
      [Spawn (lit "git diff --cached") (Some (lit "/repo"))]
        ++ [ApiRequest (anthropic plainGenerator) params]
    /\ messages params = [ {| role := lit "user"; content := text |} ]
    /\ text = before ++ lit "

Additional custom rules:
- use present tense
- mention ticket id" ++ lit "
- Do not wrap the response in code blocks or backticks
- Return plain text only".
Proof.
  destruct (custom_rules_block
              (scripted (inr rulesConfig) (inr sampleDiff) (inr []) (inr []))
              plainGenerator None []
              [Spawn (lit "git diff --cached") (Some (lit "/repo"))]
              rulesConfig sampleDiff true eq_refl eq_refl)
    as [params [text [before [Ht [Hm [He _]]]]]].
  exists params, text, before. repeat split; auto.
Defined.

(** ** Reading the response *)

Lemma find_text_none (response : list ContentBlock) :
  (forall b, In b response -> block_type b <> lit "text") ->
  find (fun block => strict_eq (block_type block) (lit "text")) response = None.
Proof.
  induction response as [|b rest IH]; intros H; [reflexivity|].
  cbn [find].
  assert (Hb : strict_eq (block_type b) (lit "text") = false).
  { apply strict_eq_false. apply H. now left. }
  rewrite Hb. apply IH. intros b' Hin. apply H. now right.
Qed.

Lemma find_text_first (pre post : list ContentBlock) (b : ContentBlock) :
  (forall b', In b' pre -> block_type b' <> lit "text") ->
  block_type b = lit "text" ->
  find (fun block => strict_eq (block_type block) (lit "text"))
       (pre ++ b :: post) = Some b.
Proof.
  induction pre as [|p pre IH]; intros H Hb.
  - cbn [app find]. rewrite Hb, strict_eq_refl. reflexivity.
  - cbn [app find].
    assert (Hp : strict_eq (block_type p) (lit "text") = false).
    { apply strict_eq_false. apply H. now left. }
    rewrite Hp. apply IH; [|exact Hb]. intros b' Hin. apply H. now right.
Qed.

(** C7: when the API replies, a response without any block of type "text"
    makes generateCommitMessage return "Unable to generate commit message"
    (it does not throw); otherwise it returns the text of the first block
    whose type is "text". *)
Theorem response_text_or_fallback
    (w : World) (this : CommitMessageGenerator) (path : option str)
    (tr tr1 : Trace) (cfg : Config) (diff : str) (isStaged : bool)
    (response : list ContentBlock) :
  getConfiguration w configSection = inr cfg ->
  collectDiff (resolveCwd path w) w tr = (Returned (diff, isStaged), tr1) ->
  messages_create w (anthropic this) (requestFor cfg diff isStaged)
    = inr response ->
  ((forall b, In b response -> block_type b <> lit "text") ->
   fst (generateCommitMessage this path w tr) =
     Returned (lit "Unable to generate commit message"))
  /\ (forall pre b post,
        response = pre ++ b :: post ->
        (forall b', In b' pre -> block_type b' <> lit "text") ->
        block_type b = lit "text" ->
        fst (generateCommitMessage this path w tr) = Returned (block_text b)
        /\ exists text, b = TextBlock text /\ block_text b = text).
Proof.
  intros Hc Hd Hr.
  rewrite (generate_sends w this path tr tr1 cfg diff isStaged Hc Hd), Hr.
  cbn [fst]. unfold extractText. split.
  - intros Hnone. now rewrite find_text_none.
  - intros pre b post -> Hpre Hb. rewrite (find_text_first pre post b Hpre Hb).
    split; [reflexivity|].
    destruct b; try (vm_compute in Hb; discriminate).
    now exists text.
Qed.

Lemma response_text_or_fallback_witness :
  fst (generateCommitMessage plainGenerator None
         (scripted (inr unsetConfig) (inr sampleDiff) (inr [])
            (inr [ThinkingBlock (lit "hm") []; ToolUseBlock (lit "t1") (lit "git")]))
         []) =
    Returned (lit "Unable to generate commit message")
  /\ fst (generateCommitMessage plainGenerator None
            (scripted (inr unsetConfig) (inr sampleDiff) (inr [])
               (inr [ThinkingBlock (lit "hm") []; TextBlock (lit "feat: add foo");
                     TextBlock (lit "second")]))
            []) =
       Returned (lit "feat: add foo").
Proof.
  split.
  - apply (proj1 (response_text_or_fallback
                    (scripted (inr unsetConfig) (inr sampleDiff) (inr [])
                       (inr [ThinkingBlock (lit "hm") [];
                             ToolUseBlock (lit "t1") (lit "git")]))
                    plainGenerator None []
                    [Spawn (lit "git diff --cached") (Some (lit "/repo"))]
                    unsetConfig sampleDiff true
                    [ThinkingBlock (lit "hm") []; ToolUseBlock (lit "t1") (lit "git")]
                    eq_refl eq_refl eq_refl)).
    intros b [<-|[<-|[]]]; vm_compute; discriminate.
  - apply (proj2 (response_text_or_fallback
                    (scripted (inr unsetConfig) (inr sampleDiff) (inr [])
                       (inr [ThinkingBlock (lit "hm") [];
                             TextBlock (lit "feat: add foo");
                             TextBlock (lit "second")]))
                    plainGenerator None []
                    [Spawn (lit "git diff --cached") (Some (lit "/repo"))]
                    unsetConfig sampleDiff true
                    [ThinkingBlock (lit "hm") []; TextBlock (lit "feat: add foo");
                     TextBlock (lit "second")]
                    eq_refl eq_refl eq_refl)
             [ThinkingBlock (lit "hm") []] (TextBlock (lit "feat: add foo"))
             [TextBlock (lit "second")] eq_refl).
    + intros b [<-|[]]; vm_compute; discriminate.
    + reflexivity.
Defined.

(** ** The catch clause *)

Lemma raised_try_thrown (w : World) (this : CommitMessageGenerator)
    (path : option str) (tr : Trace) (e : Error) :
  Raised w this path e ->
  fst (generateCommitMessage_try this path w tr) = Thrown e.
Proof.
  intros [e0 Hc | cfg e0 Hc Hs | cfg staged e0 Hc Hs Hb Hu
         | cfg staged unstaged Hc Hs Hb Hu Hb'
         | cfg staged e0 Hc Hs Hn Ha
         | cfg staged unstaged e0 Hc Hs Hb Hu Hn Ha].
  - now rewrite (generate_try_config_fails w this path tr e0 Hc).
  - rewrite (generate_try_run w this path tr cfg Hc).
    now rewrite (collectDiff_staged_fails w _ tr e0 Hs).
  - rewrite (generate_try_run w this path tr cfg Hc).
    now rewrite (collectDiff_unstaged_fails w _ tr staged e0 Hs Hb Hu).
  - rewrite (generate_try_run w this path tr cfg Hc).
    now rewrite (collectDiff_no_changes w _ tr staged unstaged Hs Hb Hu Hb').
  - rewrite (generate_try_run w this path tr cfg Hc).
    rewrite (collectDiff_staged w _ tr staged Hs Hn). now rewrite Ha.
  - rewrite (generate_try_run w this path tr cfg Hc).
    rewrite (collectDiff_unstaged w _ tr staged unstaged Hs Hb Hu Hn).
    now rewrite Ha.
Qed.

Lemma try_thrown_raised (w : World) (this : CommitMessageGenerator)
    (path : option str) (tr : Trace) (e : Error) :
  fst (generateCommitMessage_try this path w tr) = Thrown e ->
  Raised w this path e.
Proof.
  destruct (getConfiguration w configSection) as [e0|cfg] eqn:Hc.
  { rewrite (generate_try_config_fails w this path tr e0 Hc). cbn [fst].
    intros [= <-]. now apply raised_by_configuration. }
  rewrite (generate_try_run w this path tr cfg Hc).
  destruct (exec w (lit "git diff --cached") (resolveCwd path w))
    as [e0|staged] eqn:Hs.
  { rewrite (collectDiff_staged_fails w _ tr e0 Hs). cbn [fst].
    intros [= <-]. now apply raised_by_staged_diff with cfg. }
  destruct (blank_dec staged) as [Hb|Hn].
  - destruct (exec w (lit "git diff") (resolveCwd path w))
      as [e0|unstaged] eqn:Hu.
    { rewrite (collectDiff_unstaged_fails w _ tr staged e0 Hs Hb Hu). cbn [fst].
      intros [= <-]. now apply raised_by_unstaged_diff with cfg staged. }
    destruct (blank_dec unstaged) as [Hb'|Hn'].
    + rewrite (collectDiff_no_changes w _ tr staged unstaged Hs Hb Hu Hb').
      cbn [fst]. intros [= <-].
      now apply raised_no_changes with cfg staged unstaged.
    + rewrite (collectDiff_unstaged w _ tr staged unstaged Hs Hb Hu Hn').
      destruct (messages_create w (anthropic this) (requestFor cfg unstaged false))
        as [e0|response] eqn:Ha; cbn [fst]; [|discriminate].
      intros [= <-]. now apply raised_by_api_unstaged with cfg staged unstaged.
  - rewrite (collectDiff_staged w _ tr staged Hs Hn).
    destruct (messages_create w (anthropic this) (requestFor cfg staged true))
      as [e0|response] eqn:Ha; cbn [fst]; [|discriminate].
    intros [= <-]. now apply raised_by_api_staged with cfg staged.
Qed.

Lemma generate_outcome (w : World) (this : CommitMessageGenerator)
    (path : option str) (tr : Trace) :
  fst (generateCommitMessage this path w tr) =
    match fst (generateCommitMessage_try this path w tr) with
    | Returned a => Returned a
    | Thrown e => Thrown (wrapped e)
    end.
Proof.
  rewrite generate_run.
  now destruct (generateCommitMessage_try this path w tr) as [[a|e] tr1].
Qed.

(** C4: whatever is thrown inside generation (by the configuration read,
    by either git process, by the "no changes" check or by the completion
    API) leaves generateCommitMessage as one error whose message is
    "Failed to generate commit message: " followed by the original message,
    and generateCommitMessage throws nothing else; with no staged and no
    unstaged change the message contains "No changes found". *)
Theorem every_failure_is_rewrapped
    (w : World) (this : CommitMessageGenerator) (path : option str) (tr : Trace) :
  (forall e, Raised w this path e ->
     fst (generateCommitMessage this path w tr) =
       Thrown (mkError (lit "Failed to generate commit message: " ++ message e)))
  /\ (forall e', fst (generateCommitMessage this path w tr) = Thrown e' ->
        exists e, Raised w this path e
          /\ message e' = lit "Failed to generate commit message: " ++ message e)
  /\ (forall cfg staged unstaged,
        getConfiguration w configSection = inr cfg ->
        exec w (lit "git diff --cached") (resolveCwd path w) = inr staged ->
        blank staged ->
        exec w (lit "git diff") (resolveCwd path w) = inr unstaged ->
        blank unstaged ->
        exists e',
          fst (generateCommitMessage this path w tr) = Thrown e'
          /\ message e' =
               lit "Failed to generate commit message: No changes found (staged or unstaged)"
          /\ substring (lit "No changes found") (message e')).
Proof.
  split; [|split].
  - intros e Hr. rewrite generate_outcome.
    now rewrite (raised_try_thrown w this path tr e Hr).
  - intros e'. rewrite generate_outcome.
    destruct (fst (generateCommitMessage_try this path w tr)) as [a|e] eqn:Ht;
      [discriminate|].
    intros [= <-]. exists e. split; [|reflexivity].
    now apply try_thrown_raised with tr.
  - intros cfg staged unstaged Hc Hs Hb Hu Hb'.
    eexists. split; [|split].
    + rewrite generate_outcome.
      rewrite (raised_try_thrown w this path tr _
                 (raised_no_changes w this path cfg staged unstaged Hc Hs Hb Hu Hb')).
      reflexivity.
    + reflexivity.
    + exists (lit "Failed to generate commit message: "),
             (lit " (staged or unstaged)").
      reflexivity.
Qed.

Lemma every_failure_is_rewrapped_witness :
  exists e',
    fst (generateCommitMessage plainGenerator None
           (scripted (inr unsetConfig) (inr []) (inr (lit "
")) (inr [])) []) = Thrown e'
    /\ message e' =
         lit "Failed to generate commit message: No changes found (staged or unstaged)"
    /\ substring (lit "No changes found") (message e').
Proof.
  apply (proj2 (proj2 (every_failure_is_rewrapped
                         (scripted (inr unsetConfig) (inr []) (inr (lit "
")) (inr []))
                         plainGenerator None []))
           unsetConfig [] (lit "
") eq_refl eq_refl eq_refl eq_refl eq_refl).
Defined.

(** ** Falsy configuration values *)

Lemma or_str_unset (a : option str) (d : str) :
  or_str (unsetFalsyStr a) d = or_str a d.
Proof.
  destruct a as [s|]; [|reflexivity].
  unfold unsetFalsyStr, or_str. destruct (truthy s) eqn:Ht; [|reflexivity].
  now rewrite Ht.
Qed.

Lemma requestFor_dropFalsy (cfg : Config) (diff : str) (isStaged : bool) :
  requestFor (dropFalsy cfg) diff isStaged = requestFor cfg diff isStaged.
Proof.
  unfold requestFor, dropFalsy.
  cbn [cfg_model cfg_maxTokens cfg_customRules cfg_commitFormat cfg_customTemplate].
  rewrite !or_str_unset.
  assert (Hn : or_num match cfg_maxTokens cfg with
                      | Some n => if (n =? 0)%Z then None else Some n
                      | None => None
                      end 200 = or_num (cfg_maxTokens cfg) 200).
  { destruct (cfg_maxTokens cfg) as [n|]; [|reflexivity].
    unfold or_num. destruct (n =? 0)%Z eqn:Hz; [reflexivity|]. now rewrite Hz. }
  assert (Ha : or_arr match cfg_customRules cfg with
                      | Some (r :: rs) => Some (r :: rs)
                      | _ => None
                      end [] = or_arr (cfg_customRules cfg) []).
  { now destruct (cfg_customRules cfg) as [[|r rs]|]. }
  now rewrite Hn, Ha.
Qed.

Lemma constructor_withConfig (w : World) (cfg : Config) (tr : Trace) :
  constructor (withConfig w cfg) tr =
    (Returned
       {| anthropic :=
            {| baseURL := unsetFalsyStr (cfg_baseUrl cfg);
               authToken := unsetFalsyStr (cfg_authToken cfg) |} |}, tr).
Proof.
  unfold constructor. run. cbn [getConfiguration withConfig]. run.
  unfold unsetFalsyStr.
  destruct (cfg_baseUrl cfg) as [u|]; destruct (cfg_authToken cfg) as [t|];
    try destruct (truthy u); try destruct (truthy t); reflexivity.
Qed.

Lemma unsetFalsyStr_idem (a : option str) :
  unsetFalsyStr (unsetFalsyStr a) = unsetFalsyStr a.
Proof.
  destruct a as [s|]; [|reflexivity].
  unfold unsetFalsyStr. destruct (truthy s) eqn:Ht; [|reflexivity].
  now rewrite Ht.
Qed.

(** The diff collection only consults the git processes. *)
Lemma collectDiff_withConfig (w : World) (cfg : Config) (cwd : option str)
    (tr : Trace) :
  collectDiff cwd (withConfig w cfg) tr = collectDiff cwd w tr.
Proof.
  unfold collectDiff. run. cbn [exec withConfig].
  destruct (exec w (lit "git diff --cached") cwd) as [e|staged]; [reflexivity|].
  destruct (truthy (trim staged)) eqn:Hs; run; rewrite ?Hs; run;
    [reflexivity|].
  cbn [exec withConfig].
  destruct (exec w (lit "git diff") cwd) as [e|unstaged]; [reflexivity|].
  now destruct (truthy (trim unstaged)).
Qed.

Lemma generate_withConfig (w : World) (this : CommitMessageGenerator)
    (path : option str) (tr : Trace) (cfg : Config) :
  generateCommitMessage this path (withConfig w cfg) tr =
    match collectDiff (resolveCwd path w) w tr with
    | (Returned (diff, isStaged), tr1) =>
        (match messages_create w (anthropic this) (requestFor cfg diff isStaged) with
         | inl e => Thrown (wrapped e)
         | inr response => Returned (extractText response)
         end,
         tr1 ++ [ApiRequest (anthropic this) (requestFor cfg diff isStaged)])
    | (Thrown e, tr1) => (Thrown (wrapped e), tr1)
    end.
Proof.
  rewrite generate_run.
  rewrite (generate_try_run (withConfig w cfg) this path tr cfg eq_refl).
  change (resolveCwd path (withConfig w cfg)) with (resolveCwd path w).
  rewrite collectDiff_withConfig.
  destruct (collectDiff (resolveCwd path w) w tr) as [[[diff isStaged]|e] tr1];
    [|reflexivity].
  cbn [messages_create withConfig].
  now destruct (messages_create w (anthropic this) (requestFor cfg diff isStaged)).
Qed.

(** C9: a falsy configured value is treated exactly as an absent one.
    Replacing every falsy value of a configuration by [undefined] changes
    neither what the constructor builds nor what generateCommitMessage does;
    in particular with model "", maxTokens 0, empty customRules,
    commitFormat and customTemplate, and "" for baseUrl and authToken, the
    client gets no baseURL and no authToken and the request carries model
    "claude-4-sonnet", max_tokens 200, the conventional rule block and no
    custom-rules block. *)
Theorem falsy_values_take_defaults
    (w : World) (this : CommitMessageGenerator) (path : option str) (tr : Trace) :
  (forall cfg,
     constructor (withConfig w cfg) tr =
       constructor (withConfig w (dropFalsy cfg)) tr
     /\ generateCommitMessage this path (withConfig w cfg) tr =
          generateCommitMessage this path (withConfig w (dropFalsy cfg)) tr)
  /\ dropFalsy falsyConfig = unsetConfig
  /\ constructor (withConfig w falsyConfig) tr =
       (Returned {| anthropic := {| baseURL := None; authToken := None |} |}, tr)
  /\ (forall diff isStaged tr1,
        collectDiff (resolveCwd path w) w tr = (Returned (diff, isStaged), tr1) ->
        snd (generateCommitMessage this path (withConfig w falsyConfig) tr) =
          tr1 ++ [ApiRequest (anthropic this)
                    {| model := lit "claude-4-sonnet";
                       max_tokens := 200;
                       messages :=
                         [ {| role := lit "user";
                              content :=
                                userContent
                                  (if isStaged then lit "staged files"
                                   else lit "changed files")
                                  diff
                                  (getFormatRules (lit "conventional") [])
                                  [] |} ];
                       system := systemPrompt |}]).
Proof.
  split; [|split; [|split]].
  - intros cfg. split.
    + rewrite !constructor_withConfig. cbn [dropFalsy cfg_baseUrl cfg_authToken].
      now rewrite !unsetFalsyStr_idem.
    + rewrite !generate_withConfig.
      destruct (collectDiff (resolveCwd path w) w tr) as [[[diff isStaged]|e] tr1];
        [|reflexivity].
      now rewrite requestFor_dropFalsy.
  - reflexivity.
  - now rewrite constructor_withConfig.
  - intros diff isStaged tr1 Hd. rewrite generate_withConfig, Hd.
    reflexivity.
Qed.

Lemma falsy_values_take_defaults_witness :
  snd (generateCommitMessage plainGenerator None
         (withConfig (scripted (inr unsetConfig) (inr sampleDiff) (inr []) (inr []))
            falsyConfig) []) =
    [Spawn (lit "git diff --cached") (Some (lit "/repo"))]
      ++ [ApiRequest (anthropic plainGenerator)
            {| model := lit "claude-4-sonnet";
               max_tokens := 200;
               messages :=
                 [ {| role := lit "user";
                      content :=
                        userContent (lit "staged files") sampleDiff
                          (getFormatRules (lit "conventional") []) [] |} ];
               system := systemPrompt |}].
Proof.
  apply (proj2 (proj2 (proj2
           (falsy_values_take_defaults
              (scripted (inr unsetConfig) (inr sampleDiff) (inr []) (inr []))
              plainGenerator None [])))
           sampleDiff true
           [Spawn (lit "git diff --cached") (Some (lit "/repo"))] eq_refl).
Defined.

(** The request of a whole run, spelled out: default configuration, two
    custom rules, a staged diff. *)
Example sample_run :
  generateCommitMessage plainGenerator None
    (scripted (inr rulesConfig) (inr sampleDiff) (inr [])
       (inr [TextBlock (lit "feat: add foo")])) [] =
  (Returned (lit "feat: add foo"),
   [Spawn (lit "git diff --cached") (Some (lit "/repo"));
    ApiRequest {| baseURL := None; authToken := None |}
      {| model := lit "claude-4-sonnet";
         max_tokens := 200;
         messages :=
           [ {| role := lit "user";
                content := lit "write me a commit message for the staged files, do not commit

Git diff:
diff --git a/x b/x
+foo

Rules:
- Use conventional commit format
- Keep under 72 characters for the first line
- Be specific and clear
- Common types: feat, fix, docs, style, refactor, test, chore

Additional custom rules:
- use present tense
- mention ticket id
- Do not wrap the response in code blocks or backticks
- Return plain text only" |} ];
         system := systemPrompt |}]).
Proof. reflexivity. Qed.

(** ** Further properties of the generator *)

Lemma collectDiff_events (w : World) (cwd : option str) (tr : Trace) :
  snd (collectDiff cwd w tr) = tr ++ [Spawn (lit "git diff --cached") cwd]
  \/ snd (collectDiff cwd w tr) =
       tr ++ [Spawn (lit "git diff --cached") cwd; Spawn (lit "git diff") cwd].
Proof.
  destruct (exec w (lit "git diff --cached") cwd) as [e|staged] eqn:Hs.
  { left. now rewrite (collectDiff_staged_fails w cwd tr e Hs). }
  destruct (blank_dec staged) as [Hb|Hn].
  - right. destruct (exec w (lit "git diff") cwd) as [e|unstaged] eqn:Hu.
    { now rewrite (collectDiff_unstaged_fails w cwd tr staged e Hs Hb Hu). }
    destruct (blank_dec unstaged) as [Hb'|Hn'].
    + now rewrite (collectDiff_no_changes w cwd tr staged unstaged Hs Hb Hu Hb').
    + now rewrite (collectDiff_unstaged w cwd tr staged unstaged Hs Hb Hu Hn').
  - left. now rewrite (collectDiff_staged w cwd tr staged Hs Hn).
Qed.

(** X1: one call of generateCommitMessage starts at most two git processes,
    both in the resolved working directory and [git diff --cached] first,
    and sends at most one API request, after the processes and through the
    generator's own client. *)
Theorem generator_external_calls
    (w : World) (this : CommitMessageGenerator) (path : option str) (tr : Trace) :
  exists evs,
    snd (generateCommitMessage this path w tr) = tr ++ evs
    /\ (evs = []
        \/ evs = [Spawn (lit "git diff --cached") (resolveCwd path w)]
        \/ evs = [Spawn (lit "git diff --cached") (resolveCwd path w);
                  Spawn (lit "git diff") (resolveCwd path w)]
        \/ (exists params,
              evs = [Spawn (lit "git diff --cached") (resolveCwd path w);
                     ApiRequest (anthropic this) params])
        \/ (exists params,
              evs = [Spawn (lit "git diff --cached") (resolveCwd path w);
                     Spawn (lit "git diff") (resolveCwd path w);
                     ApiRequest (anthropic this) params])).
Proof.
  rewrite generate_run.
  destruct (getConfiguration w configSection) as [e|cfg] eqn:Hc.
  { rewrite (generate_try_config_fails w this path tr e Hc).
    exists []. split; [now rewrite app_nil_r | now left]. }
  rewrite (generate_try_run w this path tr cfg Hc).
  pose proof (collectDiff_events w (resolveCwd path w) tr) as Hev.
  destruct (collectDiff (resolveCwd path w) w tr) as [[[diff isStaged]|e] tr1];
    cbn [snd] in *.
  - destruct Hev as [-> | ->];
      destruct (messages_create w (anthropic this) (requestFor cfg diff isStaged));
      rewrite <- app_assoc; eexists; (split; [reflexivity|]); cbn [app].
    + right; right; right; left. now eexists.
    + right; right; right; left. now eexists.
    + right; right; right; right. now eexists.
    + right; right; right; right. now eexists.
  - destruct Hev as [-> | ->]; eexists; (split; [reflexivity|]).
    + right; left. reflexivity.
    + right; right; left. reflexivity.
Qed.

(** X2: an API request goes out only when one of the two git commands
    printed a non-blank diff; it is made with the generator's client,
    carries the fixed two-block system prompt and a single message, of role
    "user", in which that diff occurs. *)
Theorem request_only_for_nonblank_diff
    (w : World) (this : CommitMessageGenerator) (path : option str)
    (client : ClientOptions) (params : MessageCreateParams) :
  In (ApiRequest client params) (snd (generateCommitMessage this path w [])) ->
  client = anthropic this
  /\ system params = systemPrompt
  /\ exists diff isStaged text,
       exec w (if isStaged : bool then lit "git diff --cached" else lit "git diff")
            (resolveCwd path w) = inr diff
       /\ ~ blank diff
       /\ messages params = [ {| role := lit "user"; content := text |} ]
       /\ substring diff text.
Proof.
  rewrite generate_run.
  destruct (getConfiguration w configSection) as [e|cfg] eqn:Hc.
  { rewrite (generate_try_config_fails w this path [] e Hc). intros []. }
  rewrite (generate_try_run w this path [] cfg Hc).
  pose proof (collectDiff_events w (resolveCwd path w) []) as Hev.
  destruct (collectDiff (resolveCwd path w) w []) as [[[diff isStaged]|e] tr1] eqn:Hd;
    cbn [snd] in Hev.
  - destruct (collectDiff_inv _ _ _ _ _ _ Hd) as [Hn [Hx _]].
    assert (Hin : In (ApiRequest client params)
                    (tr1 ++ [ApiRequest (anthropic this) (requestFor cfg diff isStaged)]) ->
                  ApiRequest client params =
                    ApiRequest (anthropic this) (requestFor cfg diff isStaged)).
    { intros Hin. apply in_app_or in Hin. destruct Hin as [Hin|[Hin|[]]]; [|now symmetry].
      destruct Hev as [-> | ->]; cbn in Hin; intuition discriminate. }
    intros Hin0.
    assert (Heq : ApiRequest client params =
                  ApiRequest (anthropic this) (requestFor cfg diff isStaged)).
    { apply Hin.
      now destruct (messages_create w (anthropic this) (requestFor cfg diff isStaged)). }
    injection Heq as -> ->.
    split; [reflexivity|]. split; [reflexivity|].
    exists diff, isStaged. eexists. repeat split; [exact Hx|exact Hn|].
    unfold substring, userContent.
    exists (lit "write me a commit message for the "
              ++ (if isStaged then lit "staged files" else lit "changed files")
              ++ lit ", do not commit

Git diff:
").
    eexists. rewrite <- !app_assoc. reflexivity.
  - cbn [snd]. intros Hin. destruct Hev as [-> | ->]; cbn in Hin; intuition discriminate.
Qed.

Lemma request_only_for_nonblank_diff_witness :
  exists diff isStaged text,
    exec (scripted (inr unsetConfig) (inr []) (inr sampleDiff) (inr []))
         (if isStaged : bool then lit "git diff --cached" else lit "git diff")
         (Some (lit "/repo")) = inr diff
    /\ ~ blank diff
    /\ messages (requestFor unsetConfig sampleDiff false) =
         [ {| role := lit "user"; content := text |} ]
    /\ substring diff text.
Proof.
  apply (request_only_for_nonblank_diff
           (scripted (inr unsetConfig) (inr []) (inr sampleDiff) (inr []))
           plainGenerator None (anthropic plainGenerator)
           (requestFor unsetConfig sampleDiff false)).
  cbn. right. right. left. reflexivity.
Defined.

(** X3: a diff handed on by the diff-collection step always holds at least
    one code unit that is neither white space nor a line terminator; in
    particular it is never the empty string. *)
Theorem collected_diff_has_content
    (w : World) (cwd : option str) (tr tr1 : Trace) (diff : str) (isStaged : bool) :
  collectDiff cwd w tr = (Returned (diff, isStaged), tr1) ->
  exists c, In c diff /\ isWhiteSpace c = false.
Proof.
  intros Hd. destruct (collectDiff_inv _ _ _ _ _ _ Hd) as [Hn _].
  rewrite blank_iff in Hn.
  destruct (existsb (fun c => negb (isWhiteSpace c)) diff) eqn:He.
  - apply existsb_exists in He. destruct He as [c [Hin Hc]].
    exists c. split; [exact Hin|]. now apply negb_true_iff.
  - exfalso. apply Hn. apply forallb_forall. intros c Hin.
    destruct (isWhiteSpace c) eqn:Hc; [reflexivity|].
    assert (Hex : existsb (fun c => negb (isWhiteSpace c)) diff = true).
    { apply existsb_exists. exists c. split; [exact Hin|]. now rewrite Hc. }
    congruence.
Qed.

Lemma collected_diff_has_content_witness :
  exists c, In c (lit " + foo
") /\ isWhiteSpace c = false.
Proof.
  apply (collected_diff_has_content
           (scripted (inr unsetConfig) (inr (lit "  ")) (inr (lit " + foo
")) (inr []))
           (Some (lit "/repo")) []
           [Spawn (lit "git diff --cached") (Some (lit "/repo"));
            Spawn (lit "git diff") (Some (lit "/repo"))]
           (lit " + foo
") false eq_refl).
Defined.

(** X4: customTemplate plays a part for commitFormat "custom" only: for
    every other format, recognised or not, the rule block is the same
    whatever the template. *)
Theorem template_only_matters_for_custom (commitFormat t1 t2 : str) :
  commitFormat <> lit "custom" ->
  getFormatRules commitFormat t1 = getFormatRules commitFormat t2.
Proof.
  intros Hn. unfold getFormatRules.
  apply strict_eq_false in Hn. rewrite Hn.
  destruct (strict_eq commitFormat (lit "conventional")); [reflexivity|].
  now destruct (strict_eq commitFormat (lit "angular")).
Qed.

Lemma template_only_matters_for_custom_witness :
  getFormatRules (lit "conventional") (lit "<scope>: <what>") =
  getFormatRules (lit "conventional") [].
Proof.
  apply template_only_matters_for_custom.
  intros H. vm_compute in H. discriminate.
Defined.

(** X5: whatever the format and the template, the rule block opens with the
    line "Rules:" followed by a line feed; a template cannot displace or
    alter that header. *)
Theorem rule_block_header (commitFormat customTemplate : str) :
  firstLine (getFormatRules commitFormat customTemplate) = lit "Rules:"
  /\ exists rest,
       getFormatRules commitFormat customTemplate = lit "Rules:" ++ [LF] ++ rest.
Proof.
  unfold getFormatRules.
  destruct (strict_eq commitFormat (lit "conventional"));
    [split; [reflexivity | eexists; reflexivity]|].
  destruct (strict_eq commitFormat (lit "angular"));
    [split; [reflexivity | eexists; reflexivity]|].
  destruct (strict_eq commitFormat (lit "custom"));
    [|split; [reflexivity | eexists; reflexivity]].
  destruct (truthy customTemplate);
    split; try reflexivity; eexists; reflexivity.
Qed.

(** X6: with commitFormat "custom" a non-empty template reaches the rule
    block verbatim, between the same two fixed pieces of text, so two
    different templates never give the same block. *)
Theorem custom_template_verbatim (t1 t2 : str) :
  t1 <> [] -> t2 <> [] ->
  substring t1 (getFormatRules (lit "custom") t1)
  /\ (getFormatRules (lit "custom") t1 = getFormatRules (lit "custom") t2 ->
      t1 = t2).
Proof.
  intros H1 H2. apply truthy_true in H1, H2.
  assert (E : forall t, truthy t = true ->
                getFormatRules (lit "custom") t =
                  lit "Rules:
- Follow this custom template: " ++ t ++ lit "
- Be specific and clear").
  { intros t Ht. unfold getFormatRules.
    change (strict_eq (lit "custom") (lit "conventional")) with false.
    change (strict_eq (lit "custom") (lit "angular")) with false.
    change (strict_eq (lit "custom") (lit "custom")) with true.
    cbv iota. now rewrite Ht. }
  rewrite (E t1 H1), (E t2 H2). split.
  - eexists _, _. reflexivity.
  - intros Heq. apply app_inv_head in Heq. now apply app_inv_tail in Heq.
Qed.

Lemma custom_template_verbatim_witness :
  substring (lit "<scope>: <what>") (getFormatRules (lit "custom") (lit "<scope>: <what>"))
  /\ (getFormatRules (lit "custom") (lit "<scope>: <what>") =
      getFormatRules (lit "custom") (lit "<what>") ->
      lit "<scope>: <what>" = lit "<what>").
Proof.
  apply custom_template_verbatim; intros H; vm_compute in H; discriminate.
Defined.

(** X7: the constructor passes a failing configuration read on unchanged
    and makes no external call; otherwise the client gets a baseURL exactly
    when baseUrl is configured and non-empty, and an authToken exactly when
    authToken is, each independently of the other, with the configured
    value. *)
Theorem constructor_options (w : World) (tr : Trace) :
  (forall e, getConfiguration w configSection = inl e ->
     constructor w tr = (Thrown e, tr))
  /\ (forall cfg, getConfiguration w configSection = inr cfg ->
        exists g,
          constructor w tr = (Returned g, tr)
          /\ (forall u, baseURL (anthropic g) = Some u
                        <-> cfg_baseUrl cfg = Some u /\ u <> [])
          /\ (forall t, authToken (anthropic g) = Some t
                        <-> cfg_authToken cfg = Some t /\ t <> [])).
Proof.
  split.
  - intros e Hc. unfold constructor. run. now rewrite Hc.
  - intros cfg Hc. exists (generatorOf cfg). split; [|split].
    + unfold constructor. run. rewrite Hc. run. unfold generatorOf, unsetFalsyStr.
      destruct (cfg_baseUrl cfg) as [u|]; destruct (cfg_authToken cfg) as [t|];
        try destruct (truthy u); try destruct (truthy t); reflexivity.
    + intros u. cbn [generatorOf anthropic baseURL]. unfold unsetFalsyStr.
      destruct (cfg_baseUrl cfg) as [u'|]; [|split; [discriminate | intros [? _]; discriminate]].
      destruct (truthy u') eqn:Ht.
      * split; [intros [= <-]; split; [reflexivity | now apply truthy_true]
               | intros [[= <-] _]; reflexivity].
      * split; [discriminate|]. intros [[= <-] Hn].
        apply truthy_false in Ht. contradiction.
    + intros t. cbn [generatorOf anthropic authToken]. unfold unsetFalsyStr.
      destruct (cfg_authToken cfg) as [t'|]; [|split; [discriminate | intros [? _]; discriminate]].
      destruct (truthy t') eqn:Ht.
      * split; [intros [= <-]; split; [reflexivity | now apply truthy_true]
               | intros [[= <-] _]; reflexivity].
      * split; [discriminate|]. intros [[= <-] Hn].
        apply truthy_false in Ht. contradiction.
Qed.

Lemma constructor_options_witness :
  exists g,
    constructor
      (scripted (inr {| cfg_baseUrl := Some (lit "https://proxy.example");
                        cfg_authToken := Some [];
                        cfg_model := None; cfg_maxTokens := None;
                        cfg_customRules := None; cfg_commitFormat := None;
                        cfg_customTemplate := None |})
         (inr []) (inr []) (inr [])) [] = (Returned g, [])
    /\ (forall u, baseURL (anthropic g) = Some u
                  <-> Some (lit "https://proxy.example") = Some u /\ u <> [])
    /\ (forall t, authToken (anthropic g) = Some t
                  <-> Some [] = Some t /\ t <> []).
Proof.
  apply (proj2 (constructor_options
                  (scripted (inr {| cfg_baseUrl := Some (lit "https://proxy.example");
                                    cfg_authToken := Some [];
                                    cfg_model := None; cfg_maxTokens := None;
                                    cfg_customRules := None; cfg_commitFormat := None;
                                    cfg_customTemplate := None |})
                     (inr []) (inr []) (inr [])) [])
          _ eq_refl).
Defined.

(** ** The command handler *)

Ltac hrun :=
  cbv beta iota zeta
      delta [hbind hret hthrow htry emit git_getAPI window_showQuickPick of_sum].

Lemma startsWith_prefix (s p : str) :
  startsWith s p = true <-> exists rest, s = p ++ rest.
Proof.
  revert s. induction p as [|c p IH]; intros s; cbn [startsWith].
  - split; [intros _; now exists s | reflexivity].
  - destruct s as [|d s].
    + split; [discriminate | intros [rest Hr]; discriminate].
    + rewrite andb_true_iff, N.eqb_eq, IH. split.
      * intros [-> [rest ->]]. now exists rest.
      * intros [rest [= -> ->]]. split; [reflexivity | now exists rest].
Qed.

Lemma matchesRepo_true (uri : Uri) (repo : Repository) :
  matchesRepo uri repo = true <->
  uriPathOf uri <> [] /\ exists rest, uriPathOf uri = rootUri_fsPath repo ++ rest.
Proof.
  unfold matchesRepo. now rewrite andb_true_iff, truthy_true, startsWith_prefix.
Qed.

Lemma findRepository_found (uri : Uri) (pre post : list Repository)
    (repo : Repository) (index : nat) (h : Host) (tr : list HostEvent) :
  (forall r, In r pre -> matchesRepo uri r = false) ->
  matchesRepo uri repo = true ->
  findRepository uri (pre ++ repo :: post) index h tr =
    (Returned (Some (index + length pre, repo)),
     tr ++ map (comparing uri) (pre ++ [repo])).
Proof.
  revert index tr. induction pre as [|p pre IH]; intros index tr Hpre Hm.
  - cbn [app findRepository]. hrun. fold (uriPathOf uri). fold (matchesRepo uri repo).
    rewrite Hm. now rewrite Nat.add_0_r.
  - cbn [app findRepository]. hrun. fold (uriPathOf uri). fold (matchesRepo uri p).
    rewrite (Hpre p (or_introl eq_refl)).
    rewrite (IH (S index) _ (fun r Hr => Hpre r (or_intror Hr)) Hm).
    cbn [length map app]. rewrite <- app_assoc, Nat.add_succ_r. reflexivity.
Qed.

Lemma findRepository_none (uri : Uri) (repos : list Repository)
    (index : nat) (h : Host) (tr : list HostEvent) :
  (forall r, In r repos -> matchesRepo uri r = false) ->
  findRepository uri repos index h tr =
    (Returned None, tr ++ map (comparing uri) repos).
Proof.
  revert index tr. induction repos as [|p repos IH]; intros index tr Hall.
  - cbn. now rewrite app_nil_r.
  - cbn [findRepository]. hrun. fold (uriPathOf uri). fold (matchesRepo uri p).
    rewrite (Hall p (or_introl eq_refl)).
    rewrite (IH (S index) _ (fun r Hr => Hall r (or_intror Hr))).
    cbn [map]. now rewrite <- app_assoc.
Qed.

(** X8: among the repositories, the command's argument selects the first
    one whose root path is a prefix of the argument's path, compared code
    unit by code unit (no path separator is looked for); an argument with
    an empty path, or one no root is a prefix of, selects none.  The path
    is [uri.E.fsPath] when present and non-empty, [uri.path] otherwise. *)
Theorem uri_selects_first_prefix_match
    (uri : Uri) (repos : list Repository) (h : Host) (tr : list HostEvent) :
  let uriPath := or_str (uri_E_fsPath uri) (uri_path uri) in
  (forall pre repo post,
     repos = pre ++ repo :: post ->
     uriPath <> [] ->
     (exists rest, uriPath = rootUri_fsPath repo ++ rest) ->
     (forall r, In r pre -> ~ exists rest, uriPath = rootUri_fsPath r ++ rest) ->
     fst (findRepository uri repos 0 h tr) = Returned (Some (length pre, repo)))
  /\ (uriPath = []
      \/ (forall r, In r repos ->
            ~ exists rest, uriPath = rootUri_fsPath r ++ rest) ->
      fst (findRepository uri repos 0 h tr) = Returned None).
Proof.
  intros uriPath. split.
  - intros pre repo post -> Hne Hp Hpre.
    rewrite findRepository_found; [reflexivity| |].
    + intros r Hr. destruct (matchesRepo uri r) eqn:Hm; [|reflexivity].
      apply matchesRepo_true in Hm. destruct Hm as [_ Hm].
      exfalso. exact (Hpre r Hr Hm).
    + apply matchesRepo_true. now split.
  - intros Hno. rewrite findRepository_none; [reflexivity|].
    intros r Hr. destruct (matchesRepo uri r) eqn:Hm; [|reflexivity].
    apply matchesRepo_true in Hm. destruct Hm as [Hne Hm].
    destruct Hno as [He|Hno]; [contradiction|]. exfalso. exact (Hno r Hr Hm).
Qed.

Lemma uri_selects_first_prefix_match_witness :
  fst (findRepository (fileUri "/work/app2/src/a.ts")
         [repoAt "/work/lib"; repoAt "/work/app"; repoAt "/work/app2"] 0
         (editor (scripted (inr unsetConfig) (inr []) (inr []) (inr []))
            [] (inr None)) []) =
    Returned (Some (1%nat, repoAt "/work/app")).
Proof.
  apply (proj1 (uri_selects_first_prefix_match
                  (fileUri "/work/app2/src/a.ts")
                  [repoAt "/work/lib"; repoAt "/work/app"; repoAt "/work/app2"]
                  (editor (scripted (inr unsetConfig) (inr []) (inr []) (inr []))
                     [] (inr None)) [])
           [repoAt "/work/lib"] (repoAt "/work/app") [repoAt "/work/app2"] eq_refl).
  - intros H. vm_compute in H. discriminate.
  - exists (lit "2/src/a.ts"). reflexivity.
  - intros r [<-|[]] [rest Hr]. vm_compute in Hr. discriminate.
Defined.

Lemma constructor_run (w : World) (tr : Trace) :
  constructor w tr =
    match getConfiguration w configSection with
    | inl e => (Thrown e, tr)
    | inr cfg => (Returned (generatorOf cfg), tr)
    end.
Proof.
  unfold constructor. run.
  destruct (getConfiguration w configSection) as [e|cfg]; [reflexivity|]. run.
  unfold generatorOf, unsetFalsyStr.
  destruct (cfg_baseUrl cfg) as [u|]; destruct (cfg_authToken cfg) as [t|];
    try destruct (truthy u); try destruct (truthy t); reflexivity.
Qed.

Lemma logRepositories_run (repos : list Repository) (index : nat)
    (h : Host) (tr : list HostEvent) :
  logRepositories repos index h tr = (Returned tt, tr ++ repoLines repos index).
Proof.
  revert index tr. induction repos as [|repo repos IH]; intros index tr.
  - cbn. now rewrite app_nil_r.
  - cbn [logRepositories repoLines]. hrun. rewrite IH.
    now rewrite <- app_assoc.
Qed.

Lemma first_match_dec (u : Uri) (repos : list Repository) :
  (exists pre repo post,
     repos = pre ++ repo :: post
     /\ (forall r, In r pre -> matchesRepo u r = false)
     /\ matchesRepo u repo = true)
  \/ (forall r, In r repos -> matchesRepo u r = false).
Proof.
  induction repos as [|p repos IH].
  - right. intros r [].
  - destruct (matchesRepo u p) eqn:Hp.
    + left. exists [], p, repos. repeat split; [intros r []|exact Hp].
    + destruct IH as [[pre [repo [post [-> [Hpre Hm]]]]]|Hall].
      * left. exists (p :: pre), repo, post. repeat split; [|exact Hm].
        intros r [<-|Hr]; [exact Hp | now apply Hpre].
      * right. intros r [<-|Hr]; [exact Hp | now apply Hall].
Qed.

Lemma select_found (u : Uri) (pre post : list Repository) (repo : Repository)
    (h : Host) (tr : list HostEvent) :
  (forall r, In r pre -> matchesRepo u r = false) ->
  matchesRepo u repo = true ->
  selectRepository (Some u) (pre ++ repo :: post) h tr =
    (Returned (Some (length pre, repo)), tr ++ map (comparing u) (pre ++ [repo])).
Proof.
  intros Hpre Hm. unfold selectRepository, repositoryOfUri, chooseRepository. hrun.
  now rewrite (findRepository_found u pre post repo 0 h tr Hpre Hm).
Qed.

Lemma select_unmatched (uri : option Uri) (repos : list Repository)
    (h : Host) (tr : list HostEvent) :
  unmatched uri repos ->
  selectRepository uri repos h tr =
    chooseRepository None repos h (tr ++ unmatchedLog uri repos).
Proof.
  intros Hu. unfold selectRepository, repositoryOfUri. destruct uri as [u|].
  - hrun. rewrite (findRepository_none u repos 0 h tr Hu).
    rewrite logRepositories_run. unfold unmatchedLog.
    now rewrite <- !app_assoc.
  - hrun. cbn [unmatchedLog]. now rewrite app_nil_r.
Qed.

Lemma choose_empty (h : Host) (tr : list HostEvent) :
  chooseRepository None [] h tr =
    (Returned None, tr ++ [ShowErrorMessage (lit "No Git repository found")]).
Proof. reflexivity. Qed.

Lemma choose_single (repo : Repository) (h : Host) (tr : list HostEvent) :
  chooseRepository None [repo] h tr = (Returned (Some (0%nat, repo)), tr).
Proof. reflexivity. Qed.

Lemma choose_several (repos : list Repository) (h : Host) (tr : list HostEvent) :
  (2 <= length repos)%nat ->
  chooseRepository None repos h tr =
    (match showQuickPick h (map rootUri_fsPath repos) with
     | inl e => Thrown e
     | inr None => Returned None
     | inr (Some i) =>
         Returned match nth_error repos i with
                  | Some repo => Some (i, repo)
                  | None => None
                  end
     end,
     tr ++ [ShowQuickPick (map rootUri_fsPath repos) (lit "Select repository")]).
Proof.
  intros Hlen. unfold chooseRepository.
  assert (Hl : (1 <? length repos)%nat = true) by (apply Nat.ltb_lt; lia).
  rewrite Hl. hrun. rewrite map_map. cbn [fst].
  destruct (showQuickPick h (map rootUri_fsPath repos)) as [e|[i|]];
    [reflexivity| |reflexivity].
  rewrite nth_error_map. now destruct (nth_error repos i).
Qed.

Lemma lift_run {A} (m : M A) (h : Host) (tr : list HostEvent) :
  lift m h tr =
    (fst (m (host_world h) []), tr ++ map External (snd (m (host_world h) []))).
Proof. unfold lift. now destruct (m (host_world h) []). Qed.

(** The whole handler, by what the host answers. *)
Lemma handler_run (uri : option Uri) (h : Host) (tr : list HostEvent) :
  createCommitMessage uri h tr =
    match getConfiguration (host_world h) configSection with
    | inl e => (Returned tt, tr ++ [ShowErrorMessage (lit "Error: " ++ message e)])
    | inr cfg =>
        match git_exports h with
        | None =>
            (Returned tt, tr ++ [ShowErrorMessage (lit "Git extension not available")])
        | Some (inl e) =>
            (Returned tt, tr ++ [ShowErrorMessage (lit "Error: " ++ message e)])
        | Some (inr repos) =>
            match selectRepository uri repos h tr with
            | (Thrown e, tr1) =>
                (Returned tt, tr1 ++ [ShowErrorMessage (lit "Error: " ++ message e)])
            | (Returned None, tr1) => (Returned tt, tr1)
            | (Returned (Some (index, repo)), tr1) =>
                (Returned tt,
                 tr1 ++ [WithProgress (lit "Generating commit message...")]
                   ++ map External
                        (snd (generateCommitMessage (generatorOf cfg)
                                (Some (rootUri_fsPath repo)) (host_world h) []))
                   ++ match fst (generateCommitMessage (generatorOf cfg)
                                   (Some (rootUri_fsPath repo)) (host_world h) []) with
                      | Thrown e => [ShowErrorMessage (lit "Error: " ++ message e)]
                      | Returned commitMessage =>
                          if truthy commitMessage
                          then [SetInputBox index commitMessage;
                                ShowInformationMessage
                                  (lit "Commit message set for "
                                     ++ rootUri_fsPath repo ++ lit "!")]
                          else []
                      end)
            end
        end
    end.
Proof.
  unfold createCommitMessage, htry, hbind at 1.
  rewrite lift_run, constructor_run.
  destruct (getConfiguration (host_world h) configSection) as [e|cfg].
  { cbn [fst snd map]. hrun. now rewrite app_nil_r. }
  cbn [fst snd map]. rewrite app_nil_r.
  destruct (git_exports h) as [[e|repos]|]; [reflexivity| |reflexivity].
  unfold hbind at 1, git_getAPI. cbn [of_sum].
  assert (Hsel : selectRepository uri repos h tr =
                 match repositoryOfUri uri repos h tr with
                 | (Returned t, tr0) => chooseRepository t repos h tr0
                 | (Thrown e, tr0) => (Thrown e, tr0)
                 end) by reflexivity.
  rewrite Hsel. clear Hsel. unfold hbind at 1.
  destruct (repositoryOfUri uri repos h tr) as [[targetRepo|e] tr0];
    [|reflexivity].
  unfold hbind at 1.
  destruct (chooseRepository targetRepo repos h tr0) as [[[[index repo]|]|e] tr1];
    [|reflexivity|reflexivity].
  hrun. rewrite lift_run.
  destruct (generateCommitMessage (generatorOf cfg) (Some (rootUri_fsPath repo))
              (host_world h) []) as [[commitMessage|e] evs]; cbn [fst snd].
  - destruct (truthy commitMessage).
    + now rewrite <- !app_assoc.
    + now rewrite app_nil_r, <- app_assoc.
  - now rewrite <- !app_assoc.
Qed.

Lemma quiet_comparing (u : Uri) (repos : list Repository) :
  Forall quiet (map (comparing u) repos).
Proof. induction repos; cbn; constructor; [exact I | assumption]. Qed.

Lemma quiet_repoLines (repos : list Repository) (index : nat) :
  Forall quiet (repoLines repos index).
Proof.
  revert index. induction repos; intros index; cbn; constructor;
    [exact I | apply IHrepos].
Qed.

Lemma quiet_unmatchedLog (uri : option Uri) (repos : list Repository) :
  Forall quiet (unmatchedLog uri repos).
Proof.
  destruct uri as [u|]; cbn [unmatchedLog]; [|constructor].
  apply Forall_app. split; [apply quiet_comparing|].
  constructor; [exact I | apply quiet_repoLines].
Qed.

Lemma no_pick_in_comparing (u : Uri) (repos : list Repository) (l : list str) (p : str) :
  ~ In (ShowQuickPick l p) (map (comparing u) repos).
Proof.
  intros Hin. apply in_map_iff in Hin. destruct Hin as [r [Hr _]]. discriminate.
Qed.

Lemma no_pick_in_repoLines (repos : list Repository) (index : nat)
    (l : list str) (p : str) :
  ~ In (ShowQuickPick l p) (repoLines repos index).
Proof.
  revert index. induction repos as [|r repos IH]; intros index; cbn.
  - tauto.
  - intros [Hd|Hin]; [discriminate | exact (IH _ Hin)].
Qed.

Lemma no_pick_in_unmatchedLog (uri : option Uri) (repos : list Repository)
    (l : list str) (p : str) :
  ~ In (ShowQuickPick l p) (unmatchedLog uri repos).
Proof.
  destruct uri as [u|]; cbn [unmatchedLog]; [|tauto].
  intros Hin. apply in_app_or in Hin. destruct Hin as [Hin|[Hd|Hin]].
  - exact (no_pick_in_comparing _ _ _ _ Hin).
  - discriminate.
  - exact (no_pick_in_repoLines _ _ _ _ Hin).
Qed.

(** What selecting a repository can do and give. *)
Lemma selection_outcome (uri : option Uri) (repos : list Repository)
    (h : Host) (tr : list HostEvent) :
  exists evs,
    snd (selectRepository uri repos h tr) = tr ++ evs
    /\ (forall l p, In (ShowQuickPick l p) evs ->
          (2 <= length repos)%nat
          /\ l = map rootUri_fsPath repos
          /\ p = lit "Select repository"
          /\ unmatched uri repos)
    /\ match fst (selectRepository uri repos h tr) with
       | Returned (Some (i, repo)) =>
           nth_error repos i = Some repo /\ Forall quiet evs
       | Returned None =>
           Forall quiet evs
           \/ (repos = []
               /\ evs = unmatchedLog uri []
                          ++ [ShowErrorMessage (lit "No Git repository found")])
       | Thrown e => Forall quiet evs
       end.
Proof.
  assert (Hun : unmatched uri repos ->
    exists evs,
      snd (selectRepository uri repos h tr) = tr ++ evs
      /\ (forall l p, In (ShowQuickPick l p) evs ->
            (2 <= length repos)%nat
            /\ l = map rootUri_fsPath repos
            /\ p = lit "Select repository"
            /\ unmatched uri repos)
      /\ match fst (selectRepository uri repos h tr) with
         | Returned (Some (i, repo)) =>
             nth_error repos i = Some repo /\ Forall quiet evs
         | Returned None =>
             Forall quiet evs
             \/ (repos = []
                 /\ evs = unmatchedLog uri []
                            ++ [ShowErrorMessage (lit "No Git repository found")])
         | Thrown e => Forall quiet evs
         end).
  { intros Hu. rewrite (select_unmatched uri repos h tr Hu).
    destruct repos as [|r [|r2 rest]].
    - rewrite choose_empty. eexists. split; [cbn [snd]; now rewrite <- app_assoc|].
      split.
      + intros l p Hin. apply in_app_or in Hin. destruct Hin as [Hin|[Hd|[]]].
        * now apply no_pick_in_unmatchedLog in Hin.
        * discriminate.
      + cbn [fst]. right. now split.
    - rewrite choose_single. eexists. split; [reflexivity|]. split.
      + intros l p Hin. now apply no_pick_in_unmatchedLog in Hin.
      + cbn [fst]. split; [reflexivity | apply quiet_unmatchedLog].
    - rewrite choose_several by (cbn; lia).
      eexists. split; [cbn [snd]; now rewrite <- app_assoc|].
      assert (Hq : Forall quiet
                     (unmatchedLog uri (r :: r2 :: rest)
                        ++ [ShowQuickPick (map rootUri_fsPath (r :: r2 :: rest))
                              (lit "Select repository")])).
      { apply Forall_app. split; [apply quiet_unmatchedLog|].
        constructor; [exact I | constructor]. }
      split.
      + intros l p Hin. apply in_app_or in Hin. destruct Hin as [Hin|[Hd|[]]].
        * now apply no_pick_in_unmatchedLog in Hin.
        * injection Hd as <- <-. repeat split; [cbn; lia | exact Hu].
      + cbn [fst].
        destruct (showQuickPick h (map rootUri_fsPath (r :: r2 :: rest)))
          as [e|[i|]]; [exact Hq| |now left].
        destruct (nth_error (r :: r2 :: rest) i) as [repo|] eqn:Hn;
          [now split | now left]. }
  destruct uri as [u|]; [|now apply Hun].
  destruct (first_match_dec u repos) as [[pre [repo [post [-> [Hpre Hm]]]]]|Hall];
    [|now apply Hun].
  rewrite (select_found u pre post repo h tr Hpre Hm).
  eexists. split; [reflexivity|]. split.
  - intros l p Hin. now apply no_pick_in_comparing in Hin.
  - cbn [fst]. split; [|apply quiet_comparing].
    rewrite nth_error_app2 by lia. now rewrite Nat.sub_diag.
Qed.

(** X9: before any repository is known the handler makes no external call
    and shows exactly one error message: "Error: " and the message of a
    failed configuration read, "Git extension not available" when the git
    extension has no exports, "Error: " and the message thrown by
    [getAPI]. *)
Theorem handler_stops_before_repositories
    (uri : option Uri) (h : Host) (tr : list HostEvent) :
  (forall e, getConfiguration (host_world h) configSection = inl e ->
     createCommitMessage uri h tr =
       (Returned tt, tr ++ [ShowErrorMessage (lit "Error: " ++ message e)]))
  /\ (forall cfg, getConfiguration (host_world h) configSection = inr cfg ->
        (git_exports h = None ->
         createCommitMessage uri h tr =
           (Returned tt,
            tr ++ [ShowErrorMessage (lit "Git extension not available")]))
        /\ (forall e, git_exports h = Some (inl e) ->
              createCommitMessage uri h tr =
                (Returned tt,
                 tr ++ [ShowErrorMessage (lit "Error: " ++ message e)]))).
Proof.
  split.
  - intros e Hc. now rewrite handler_run, Hc.
  - intros cfg Hc. split.
    + intros Hg. now rewrite handler_run, Hc, Hg.
    + intros e Hg. now rewrite handler_run, Hc, Hg.
Qed.

Lemma handler_stops_before_repositories_witness :
  createCommitMessage None
    {| host_world := scripted (inr unsetConfig) (inr sampleDiff) (inr []) (inr []);
       git_exports := None;
       showQuickPick := fun _ => inr None |} [] =
  (Returned tt, [] ++ [ShowErrorMessage (lit "Git extension not available")]).
Proof.
  apply (proj1 (proj2 (handler_stops_before_repositories None
                         {| host_world :=
                              scripted (inr unsetConfig) (inr sampleDiff) (inr []) (inr []);
                            git_exports := None;
                            showQuickPick := fun _ => inr None |} [])
                 unsetConfig eq_refl) eq_refl).
Defined.

(** X10: when git knows no repository the handler ends with the error
    message "No Git repository found", after the one console line an
    argument causes, and starts no process and sends no request. *)
Theorem handler_no_repository
    (uri : option Uri) (h : Host) (tr : list HostEvent) (cfg : Config) :
  getConfiguration (host_world h) configSection = inr cfg ->
  git_exports h = Some (inr []) ->
  createCommitMessage uri h tr =
    (Returned tt,
     tr ++ match uri with
           | Some _ =>
               [ConsoleLog
                  [lit "No matching repo found for URI, available repos:"]]
           | None => []
           end
        ++ [ShowErrorMessage (lit "No Git repository found")]).
Proof.
  intros Hc Hg. rewrite handler_run, Hc, Hg.
  rewrite select_unmatched by (destruct uri; [intros r []|exact I]).
  rewrite choose_empty. rewrite <- app_assoc. now destruct uri.
Qed.

Lemma handler_no_repository_witness :
  createCommitMessage (Some (fileUri "/work/a.ts"))
    (editor (scripted (inr unsetConfig) (inr sampleDiff) (inr []) (inr []))
       [] (inr None)) [] =
  (Returned tt,
   [] ++ [ConsoleLog [lit "No matching repo found for URI, available repos:"]]
      ++ [ShowErrorMessage (lit "No Git repository found")]).
Proof.
  apply (handler_no_repository (Some (fileUri "/work/a.ts"))
           (editor (scripted (inr unsetConfig) (inr sampleDiff) (inr []) (inr []))
              [] (inr None)) [] unsetConfig eq_refl eq_refl).
Defined.

(** X11: with two or more repositories and no repository selected by the
    argument, the handler shows the quick pick with the repositories' root
    paths as labels, in order; when it is dismissed the handler ends there:
    no process, no request, no message, no input box. *)
Theorem quick_pick_dismissed_is_silent
    (uri : option Uri) (h : Host) (tr : list HostEvent) (cfg : Config)
    (repos : list Repository) :
  getConfiguration (host_world h) configSection = inr cfg ->
  git_exports h = Some (inr repos) ->
  (2 <= length repos)%nat ->
  unmatched uri repos ->
  showQuickPick h (map rootUri_fsPath repos) = inr None ->
  createCommitMessage uri h tr =
    (Returned tt,
     tr ++ unmatchedLog uri repos
        ++ [ShowQuickPick (map rootUri_fsPath repos) (lit "Select repository")]).
Proof.
  intros Hc Hg Hlen Hu Hp. rewrite handler_run, Hc, Hg.
  rewrite (select_unmatched uri repos h tr Hu).
  rewrite (choose_several repos h _ Hlen), Hp. now rewrite <- app_assoc.
Qed.

Lemma quick_pick_dismissed_is_silent_witness :
  createCommitMessage None
    (editor (scripted (inr unsetConfig) (inr sampleDiff) (inr []) (inr []))
       [repoAt "/work/app"; repoAt "/work/lib"] (inr None)) [] =
  (Returned tt,
   [] ++ unmatchedLog None [repoAt "/work/app"; repoAt "/work/lib"]
      ++ [ShowQuickPick [lit "/work/app"; lit "/work/lib"]
            (lit "Select repository")]).
Proof.
  apply (quick_pick_dismissed_is_silent None
           (editor (scripted (inr unsetConfig) (inr sampleDiff) (inr []) (inr []))
              [repoAt "/work/app"; repoAt "/work/lib"] (inr None))
           [] unsetConfig [repoAt "/work/app"; repoAt "/work/lib"]
           eq_refl eq_refl).
  - cbn. lia.
  - exact I.
  - reflexivity.
Defined.

(** X12: with exactly one repository the argument of the command makes no
    difference: absent, matching or not, that repository is the one the
    handler goes on with, and no quick pick is shown. *)
Theorem sole_repository_is_taken
    (uri : option Uri) (repo : Repository) (h : Host) (tr : list HostEvent) :
  exists evs,
    selectRepository uri [repo] h tr =
      (Returned (Some (0%nat, repo)), tr ++ evs)
    /\ Forall quiet evs
    /\ forall l p, ~ In (ShowQuickPick l p) evs.
Proof.
  assert (Hun : unmatched uri [repo] ->
                selectRepository uri [repo] h tr =
                  (Returned (Some (0%nat, repo)), tr ++ unmatchedLog uri [repo])).
  { intros Hu. now rewrite (select_unmatched uri [repo] h tr Hu), choose_single. }
  destruct uri as [u|].
  - destruct (matchesRepo u repo) eqn:Hm.
    + exists (map (comparing u) ([] ++ [repo])). split; [|split].
      * exact (select_found u [] [] repo h tr
                 (fun r (Hr : In r []) => match Hr with end) Hm).
      * apply quiet_comparing.
      * intros l p. apply no_pick_in_comparing.
    + exists (unmatchedLog (Some u) [repo]). split; [|split].
      * apply Hun. intros r [<-|[]]. exact Hm.
      * apply quiet_unmatchedLog.
      * intros l p. apply no_pick_in_unmatchedLog.
  - exists (unmatchedLog None [repo]). split; [now apply Hun|]. split.
    + apply quiet_unmatchedLog.
    + intros l p. apply no_pick_in_unmatchedLog.
Qed.

Lemma generate_events_in (w : World) (this : CommitMessageGenerator)
    (path : option str) (ev : Event) :
  In ev (snd (generateCommitMessage this path w [])) ->
  match ev with
  | Spawn _ cwd => cwd = resolveCwd path w
  | ApiRequest client _ => client = anthropic this
  end.
Proof.
  rewrite generate_run.
  destruct (getConfiguration w configSection) as [e|cfg] eqn:Hc.
  { rewrite (generate_try_config_fails w this path [] e Hc). intros []. }
  rewrite (generate_try_run w this path [] cfg Hc).
  pose proof (collectDiff_events w (resolveCwd path w) []) as Hev.
  destruct (collectDiff (resolveCwd path w) w []) as [[[diff isStaged]|e] tr1];
    cbn [snd] in Hev.
  - assert (Hin : In ev (tr1 ++ [ApiRequest (anthropic this)
                                   (requestFor cfg diff isStaged)]) ->
                  match ev with
                  | Spawn _ cwd => cwd = resolveCwd path w
                  | ApiRequest client _ => client = anthropic this
                  end).
    { intros Hin. apply in_app_or in Hin.
      destruct Hin as [Hin|[<-|[]]]; [|reflexivity].
      destruct Hev as [-> | ->]; cbn in Hin;
        repeat (destruct Hin as [<-|Hin]; [reflexivity|]); contradiction. }
    now destruct (messages_create w (anthropic this) (requestFor cfg diff isStaged)).
  - cbn [snd]. intros Hin.
    destruct Hev as [-> | ->]; cbn in Hin;
      repeat (destruct Hin as [<-|Hin]; [reflexivity|]); contradiction.
Qed.

(** X13: when a repository is selected and generation returns a non-empty
    message, the handler shows the progress title, lets the generator make
    its calls, writes the message into the input box of the selected
    repository and confirms with that repository's root path; the index
    written is the selected repository's place among git's repositories,
    and every git process of the run was started in its root (if that root
    is not the empty string). *)
Theorem handler_writes_generated_message
    (uri : option Uri) (h : Host) (tr tr1 : list HostEvent) (cfg : Config)
    (repos : list Repository) (index : nat) (repo : Repository)
    (commitMessage : str) (evs : Trace) :
  getConfiguration (host_world h) configSection = inr cfg ->
  git_exports h = Some (inr repos) ->
  selectRepository uri repos h tr = (Returned (Some (index, repo)), tr1) ->
  generateCommitMessage (generatorOf cfg) (Some (rootUri_fsPath repo))
    (host_world h) [] = (Returned commitMessage, evs) ->
  commitMessage <> [] ->
  createCommitMessage uri h tr =
    (Returned tt,
     tr1 ++ [WithProgress (lit "Generating commit message...")]
         ++ map External evs
         ++ [SetInputBox index commitMessage;
             ShowInformationMessage
               (lit "Commit message set for " ++ rootUri_fsPath repo ++ lit "!")])
  /\ nth_error repos index = Some repo
  /\ (rootUri_fsPath repo <> [] ->
      forall command cwd, In (Spawn command cwd) evs ->
        cwd = Some (rootUri_fsPath repo)).
Proof.
  intros Hc Hg Hs Hgen Hne. split; [|split].
  - rewrite handler_run, Hc, Hg, Hs, Hgen. cbn [fst snd].
    apply truthy_true in Hne. now rewrite Hne.
  - destruct (selection_outcome uri repos h tr) as [sel [_ [_ Ho]]].
    rewrite Hs in Ho. cbn [fst] in Ho. apply Ho.
  - intros Hroot command cwd Hin.
    pose proof (generate_events_in (host_world h) (generatorOf cfg)
                  (Some (rootUri_fsPath repo)) (Spawn command cwd)) as Hev.
    rewrite Hgen in Hev. cbn [snd] in Hev. rewrite (Hev Hin).
    cbn [resolveCwd]. apply truthy_true in Hroot. now rewrite Hroot.
Qed.

Lemma handler_writes_generated_message_witness :
  createCommitMessage (Some (fileUri "/work/app/src/a.ts"))
    (editor (scripted (inr unsetConfig) (inr sampleDiff) (inr [])
               (inr [TextBlock (lit "feat: add foo")]))
       [repoAt "/work/lib"; repoAt "/work/app"] (inr None)) [] =
  (Returned tt,
   [comparing (fileUri "/work/app/src/a.ts") (repoAt "/work/lib");
    comparing (fileUri "/work/app/src/a.ts") (repoAt "/work/app")]
     ++ [WithProgress (lit "Generating commit message...")]
     ++ map External
          [Spawn (lit "git diff --cached") (Some (lit "/work/app"));
           ApiRequest (anthropic (generatorOf unsetConfig))
             (requestFor unsetConfig sampleDiff true)]
     ++ [SetInputBox 1 (lit "feat: add foo");
         ShowInformationMessage (lit "Commit message set for /work/app!")]).
Proof.
  apply (proj1 (handler_writes_generated_message
                  (Some (fileUri "/work/app/src/a.ts"))
                  (editor (scripted (inr unsetConfig) (inr sampleDiff) (inr [])
                             (inr [TextBlock (lit "feat: add foo")]))
                     [repoAt "/work/lib"; repoAt "/work/app"] (inr None))
                  [] _ unsetConfig [repoAt "/work/lib"; repoAt "/work/app"]
                  1 (repoAt "/work/app") (lit "feat: add foo") _
                  eq_refl eq_refl eq_refl eq_refl
                  (fun H : lit "feat: add foo" = [] =>
                     match H in _ = y return match y with [] => False | _ => True end
                     with eq_refl => I end))).
Defined.

(** X14: a failure inside generation reaches the user once, as the error
    message "Error: Failed to generate commit message: " followed by the
    original message; the input box is left alone and nothing else is
    shown. *)
Theorem handler_shows_generation_failure
    (uri : option Uri) (h : Host) (tr tr1 : list HostEvent) (cfg : Config)
    (repos : list Repository) (index : nat) (repo : Repository) (e : Error) :
  getConfiguration (host_world h) configSection = inr cfg ->
  git_exports h = Some (inr repos) ->
  selectRepository uri repos h tr = (Returned (Some (index, repo)), tr1) ->
  Raised (host_world h) (generatorOf cfg) (Some (rootUri_fsPath repo)) e ->
  exists evs,
    createCommitMessage uri h tr =
      (Returned tt,
       tr1 ++ [WithProgress (lit "Generating commit message...")]
           ++ map External evs
           ++ [ShowErrorMessage
                 (lit "Error: Failed to generate commit message: " ++ message e)]).
Proof.
  intros Hc Hg Hs Hr.
  exists (snd (generateCommitMessage (generatorOf cfg)
                 (Some (rootUri_fsPath repo)) (host_world h) [])).
  rewrite handler_run, Hc, Hg, Hs.
  rewrite generate_outcome, (raised_try_thrown _ _ _ [] e Hr).
  cbn [wrapped message]. reflexivity.
Qed.

Lemma handler_shows_generation_failure_witness :
  exists evs,
    createCommitMessage None
      (editor (scripted (inr unsetConfig) (inr []) (inr []) (inr []))
         [repoAt "/work/app"] (inr None)) [] =
    (Returned tt,
     [] ++ [WithProgress (lit "Generating commit message...")]
        ++ map External evs
        ++ [ShowErrorMessage
              (lit "Error: Failed to generate commit message: "
                 ++ lit "No changes found (staged or unstaged)")]).
Proof.
  apply (handler_shows_generation_failure None
           (editor (scripted (inr unsetConfig) (inr []) (inr []) (inr []))
              [repoAt "/work/app"] (inr None))
           [] [] unsetConfig [repoAt "/work/app"] 0 (repoAt "/work/app")
           (mkError (lit "No changes found (staged or unstaged)"))
           eq_refl eq_refl eq_refl).
  apply (raised_no_changes
           (scripted (inr unsetConfig) (inr []) (inr []) (inr []))
           (generatorOf unsetConfig) (Some (lit "/work/app"))
           unsetConfig [] [] eq_refl eq_refl eq_refl eq_refl eq_refl).
Defined.

(** X15: if the first text block of the reply holds the empty string, the
    handler ends without a trace for the user, whatever later blocks hold:
    the input box is not written and neither an information nor an error
    message is shown. *)
Theorem handler_empty_message_is_silent
    (uri : option Uri) (h : Host) (tr tr1 : list HostEvent) (cfg : Config)
    (repos : list Repository) (index : nat) (repo : Repository)
    (diff : str) (isStaged : bool) (trd : Trace)
    (pre post : list ContentBlock) :
  getConfiguration (host_world h) configSection = inr cfg ->
  git_exports h = Some (inr repos) ->
  selectRepository uri repos h tr = (Returned (Some (index, repo)), tr1) ->
  collectDiff (resolveCwd (Some (rootUri_fsPath repo)) (host_world h))
    (host_world h) [] = (Returned (diff, isStaged), trd) ->
  messages_create (host_world h) (anthropic (generatorOf cfg))
    (requestFor cfg diff isStaged) = inr (pre ++ TextBlock [] :: post) ->
  (forall b, In b pre -> block_type b <> lit "text") ->
  createCommitMessage uri h tr =
    (Returned tt,
     tr1 ++ [WithProgress (lit "Generating commit message...")]
         ++ map External
              (trd ++ [ApiRequest (anthropic (generatorOf cfg))
                         (requestFor cfg diff isStaged)])).
Proof.
  intros Hc Hg Hs Hd Ha Hpre.
  rewrite handler_run, Hc, Hg, Hs.
  rewrite (generate_sends (host_world h) (generatorOf cfg)
             (Some (rootUri_fsPath repo)) [] trd cfg diff isStaged Hc Hd), Ha.
  cbn [fst snd]. unfold extractText.
  rewrite (find_text_first pre post (TextBlock []) Hpre eq_refl).
  cbn [block_text truthy]. now rewrite app_nil_r.
Qed.

Lemma handler_empty_message_is_silent_witness :
  createCommitMessage None
    (editor (scripted (inr unsetConfig) (inr sampleDiff) (inr [])
               (inr [TextBlock []; TextBlock (lit "feat: add foo")]))
       [repoAt "/work/app"] (inr None)) [] =
  (Returned tt,
   [] ++ [WithProgress (lit "Generating commit message...")]
      ++ map External
           ([Spawn (lit "git diff --cached") (Some (lit "/work/app"))]
              ++ [ApiRequest (anthropic (generatorOf unsetConfig))
                    (requestFor unsetConfig sampleDiff true)])).
Proof.
  apply (handler_empty_message_is_silent None
           (editor (scripted (inr unsetConfig) (inr sampleDiff) (inr [])
                      (inr [TextBlock []; TextBlock (lit "feat: add foo")]))
              [repoAt "/work/app"] (inr None))
           [] [] unsetConfig [repoAt "/work/app"] 0 (repoAt "/work/app")
           sampleDiff true
           [Spawn (lit "git diff --cached") (Some (lit "/work/app"))]
           [] [TextBlock (lit "feat: add foo")]
           eq_refl eq_refl eq_refl eq_refl eq_refl).
  intros b [].
Defined.

(** Every run of the handler, by its shape. *)
Lemma handler_cases (uri : option Uri) (h : Host) (tr : list HostEvent) :
  (exists t, createCommitMessage uri h tr = (Returned tt, tr ++ [ShowErrorMessage t]))
  \/ exists cfg repos sel,
       getConfiguration (host_world h) configSection = inr cfg
       /\ git_exports h = Some (inr repos)
       /\ Forall quiet sel
       /\ (forall l p, In (ShowQuickPick l p) sel ->
             (2 <= length repos)%nat
             /\ l = map rootUri_fsPath repos
             /\ p = lit "Select repository"
             /\ unmatched uri repos)
       /\ (createCommitMessage uri h tr = (Returned tt, tr ++ sel)
           \/ (exists t,
                 createCommitMessage uri h tr =
                   (Returned tt, tr ++ sel ++ [ShowErrorMessage t]))
           \/ (exists index repo,
                 nth_error repos index = Some repo
                 /\ createCommitMessage uri h tr =
                      (Returned tt,
                       tr ++ sel
                          ++ [WithProgress (lit "Generating commit message...")]
                          ++ map External
                               (snd (generateCommitMessage (generatorOf cfg)
                                       (Some (rootUri_fsPath repo))
                                       (host_world h) []))
                          ++ conclusion index repo
                               (fst (generateCommitMessage (generatorOf cfg)
                                       (Some (rootUri_fsPath repo))
                                       (host_world h) []))))).
Proof.
  rewrite handler_run.
  destruct (getConfiguration (host_world h) configSection) as [e|cfg];
    [left; now eexists|].
  destruct (git_exports h) as [[e|repos]|]; [left; now eexists| |left; now eexists].
  right. exists cfg, repos.
  destruct (selection_outcome uri repos h tr) as [evs [Hev [Hpick Ho]]].
  destruct (selectRepository uri repos h tr) as [[[[index repo]|]|e] tr1];
    cbn [fst snd] in Hev, Ho; subst tr1.
  - destruct Ho as [Hn Hq]. exists evs.
    split; [reflexivity|]. split; [reflexivity|].
    split; [exact Hq|]. split; [exact Hpick|].
    right. right. exists index, repo. split; [exact Hn|].
    unfold conclusion. now rewrite <- !app_assoc.
  - destruct Ho as [Hq|[-> ->]].
    + exists evs.
      split; [reflexivity|]. split; [reflexivity|].
      split; [exact Hq|]. split; [exact Hpick|]. now left.
    + exists (unmatchedLog uri []).
      split; [reflexivity|]. split; [reflexivity|].
      split; [apply quiet_unmatchedLog|]. split.
      * intros l p Hin. now apply no_pick_in_unmatchedLog in Hin.
      * right. left. eexists. reflexivity.
  - exists evs.
    split; [reflexivity|]. split; [reflexivity|].
    split; [exact Ho|]. split; [exact Hpick|].
    right. left. eexists. now rewrite <- app_assoc.
Qed.

Lemma quiet_not_in (sel : list HostEvent) (e : HostEvent) :
  Forall quiet sel -> In e sel -> quiet e.
Proof. intros Hq Hin. rewrite Forall_forall in Hq. now apply Hq. Qed.

Lemma quiet_calm (sel : list HostEvent) : Forall quiet sel -> Forall calm sel.
Proof.
  intros Hq. eapply Forall_impl; [|exact Hq]. intros [] Hx; exact Hx || exact I.
Qed.

Lemma calm_external (evs : Trace) : Forall calm (map External evs).
Proof. induction evs; cbn; constructor; [exact I | assumption]. Qed.

(** X16: the handler always completes without throwing, and it writes an
    input box only for a non-empty message that generateCommitMessage
    returned for the root of the repository at that index; in such a run an
    information message naming that root is shown and no error message. *)
Theorem input_box_only_after_success
    (uri : option Uri) (h : Host) (tr : list HostEvent) :
  exists evs,
    createCommitMessage uri h tr = (Returned tt, tr ++ evs)
    /\ forall index value, In (SetInputBox index value) evs ->
         value <> []
         /\ (forall t, ~ In (ShowErrorMessage t) evs)
         /\ exists cfg repos repo,
              getConfiguration (host_world h) configSection = inr cfg
              /\ git_exports h = Some (inr repos)
              /\ nth_error repos index = Some repo
              /\ fst (generateCommitMessage (generatorOf cfg)
                        (Some (rootUri_fsPath repo)) (host_world h) [])
                 = Returned value
              /\ In (ShowInformationMessage
                       (lit "Commit message set for "
                          ++ rootUri_fsPath repo ++ lit "!")) evs.
Proof.
  destruct (handler_cases uri h tr)
    as [[t ->]|[cfg [repos [sel [Hc [Hg [Hq [_ [-> |[[t ->]|[index [repo [Hn ->]]]]]]]]]]]]].
  - eexists. split; [reflexivity|]. intros i v [Hd|[]]. discriminate.
  - eexists. split; [reflexivity|]. intros i v Hin.
    exfalso. exact (quiet_not_in sel _ Hq Hin).
  - eexists. split; [reflexivity|]. intros i v Hin.
    apply in_app_or in Hin. destruct Hin as [Hin|[Hd|[]]]; [|discriminate].
    exfalso. exact (quiet_not_in sel _ Hq Hin).
  - eexists. split; [reflexivity|]. intros i v Hin.
    apply in_app_or in Hin. destruct Hin as [Hin|Hin];
      [exfalso; exact (quiet_not_in sel _ Hq Hin)|].
    cbn [app] in Hin. destruct Hin as [Hd|Hin]; [discriminate|].
    apply in_app_or in Hin. destruct Hin as [Hin|Hin].
    { apply in_map_iff in Hin. destruct Hin as [x [Hx _]]. discriminate. }
    destruct (fst (generateCommitMessage (generatorOf cfg)
                     (Some (rootUri_fsPath repo)) (host_world h) []))
      as [commitMessage|e] eqn:Hgen; cbn [conclusion] in Hin |- *.
    2: { destruct Hin as [Hd|[]]. discriminate. }
    destruct (truthy commitMessage) eqn:Ht; [|destruct Hin].
    destruct Hin as [Hd|[Hd|[]]]; [|discriminate].
    injection Hd as <- <-. split; [now apply truthy_true|]. split.
    + intros t Hin. apply in_app_or in Hin. destruct Hin as [Hin|Hin];
        [exact (quiet_not_in sel _ Hq Hin)|].
      cbn [app] in Hin. destruct Hin as [Hd|Hin]; [discriminate|].
      apply in_app_or in Hin. destruct Hin as [Hin|[Hd|[Hd|[]]]]; try discriminate.
      apply in_map_iff in Hin. destruct Hin as [x [Hx _]]. discriminate.
    + exists cfg, repos, repo.
      split; [exact Hc|]. split; [exact Hg|]. split; [exact Hn|].
      split; [exact Hgen|].
      rewrite !in_app_iff. right. right. right. right. now left.
Qed.

(** X17: the quick pick is shown only when git lists at least two
    repositories and the argument, if any, matches none of them; its labels
    are the repositories' root paths in git's order and its placeholder is
    "Select repository". *)
Theorem quick_pick_only_when_needed
    (uri : option Uri) (h : Host) (tr : list HostEvent) :
  exists evs,
    createCommitMessage uri h tr = (Returned tt, tr ++ evs)
    /\ forall labels placeHolder, In (ShowQuickPick labels placeHolder) evs ->
         exists repos,
           git_exports h = Some (inr repos)
           /\ (2 <= length repos)%nat
           /\ labels = map rootUri_fsPath repos
           /\ placeHolder = lit "Select repository"
           /\ unmatched uri repos.
Proof.
  destruct (handler_cases uri h tr)
    as [[t ->]|[cfg [repos [sel [Hc [Hg [Hq [Hp [-> |[[t ->]|[index [repo [Hn ->]]]]]]]]]]]]].
  - eexists. split; [reflexivity|]. intros l p [Hd|[]]. discriminate.
  - eexists. split; [reflexivity|]. intros l p Hin.
    exists repos. split; [exact Hg | exact (Hp l p Hin)].
  - eexists. split; [reflexivity|]. intros l p Hin.
    apply in_app_or in Hin. destruct Hin as [Hin|[Hd|[]]]; [|discriminate].
    exists repos. split; [exact Hg | exact (Hp l p Hin)].
  - eexists. split; [reflexivity|]. intros l p Hin.
    apply in_app_or in Hin. destruct Hin as [Hin|Hin];
      [exists repos; split; [exact Hg | exact (Hp l p Hin)]|].
    cbn [app] in Hin. destruct Hin as [Hd|Hin]; [discriminate|].
    apply in_app_or in Hin. destruct Hin as [Hin|Hin].
    { apply in_map_iff in Hin. destruct Hin as [x [Hx _]]. discriminate. }
    unfold conclusion in Hin.
    destruct (fst (generateCommitMessage (generatorOf cfg)
                     (Some (rootUri_fsPath repo)) (host_world h) []))
      as [commitMessage|e].
    + destruct (truthy commitMessage); [|destruct Hin].
      destruct Hin as [Hd|[Hd|[]]]; discriminate.
    + destruct Hin as [Hd|[]]. discriminate.
Qed.

(** X18: an error message, when the handler shows one, is the last thing
    it does, and before it the handler has shown no other message and
    written no input box: a run shows at most one error message and never
    both an error and a result. *)
Theorem error_message_is_final
    (uri : option Uri) (h : Host) (tr : list HostEvent) :
  exists evs,
    createCommitMessage uri h tr = (Returned tt, tr ++ evs)
    /\ forall t, In (ShowErrorMessage t) evs ->
         exists before, evs = before ++ [ShowErrorMessage t] /\ Forall calm before.
Proof.
  destruct (handler_cases uri h tr)
    as [[t ->]|[cfg [repos [sel [Hc [Hg [Hq [Hp [-> |[[t ->]|[index [repo [Hn ->]]]]]]]]]]]]].
  - eexists. split; [reflexivity|]. intros t' [[= <-]|[]].
    exists []. split; [reflexivity | constructor].
  - eexists. split; [reflexivity|]. intros t Hin.
    exfalso. exact (quiet_not_in sel _ Hq Hin).
  - eexists. split; [reflexivity|]. intros t' Hin.
    apply in_app_or in Hin. destruct Hin as [Hin|[[= <-]|[]]].
    + exfalso. exact (quiet_not_in sel _ Hq Hin).
    + exists sel. split; [reflexivity | now apply quiet_calm].
  - eexists. split; [reflexivity|]. intros t Hin.
    apply in_app_or in Hin. destruct Hin as [Hin|Hin];
      [exfalso; exact (quiet_not_in sel _ Hq Hin)|].
    cbn [app] in Hin. destruct Hin as [Hd|Hin]; [discriminate|].
    apply in_app_or in Hin. destruct Hin as [Hin|Hin].
    { apply in_map_iff in Hin. destruct Hin as [x [Hx _]]. discriminate. }
    destruct (fst (generateCommitMessage (generatorOf cfg)
                     (Some (rootUri_fsPath repo)) (host_world h) []))
      as [commitMessage|e]; cbn [conclusion] in Hin |- *.
    + destruct (truthy commitMessage); [|destruct Hin].
      destruct Hin as [Hd|[Hd|[]]]; discriminate.
    + destruct Hin as [[= <-]|[]].
      exists (sel ++ [WithProgress (lit "Generating commit message...")]
                ++ map External
                     (snd (generateCommitMessage (generatorOf cfg)
                             (Some (rootUri_fsPath repo)) (host_world h) []))).
      split; [now rewrite <- !app_assoc|].
      apply Forall_app. split; [now apply quiet_calm|].
      constructor; [exact I | apply calm_external].
Qed.

(** X19: every git process the handler causes runs for a repository git
    lists, in the working directory resolved from that repository's root,
    and every API request goes through the client built from the
    configuration the constructor read. *)
Theorem external_calls_for_listed_repository
    (uri : option Uri) (h : Host) (tr : list HostEvent) :
  exists evs,
    createCommitMessage uri h tr = (Returned tt, tr ++ evs)
    /\ forall ev, In (External ev) evs ->
         exists cfg repos repo,
           getConfiguration (host_world h) configSection = inr cfg
           /\ git_exports h = Some (inr repos)
           /\ In repo repos
           /\ match ev with
              | Spawn _ cwd =>
                  cwd = resolveCwd (Some (rootUri_fsPath repo)) (host_world h)
              | ApiRequest client _ => client = anthropic (generatorOf cfg)
              end.
Proof.
  destruct (handler_cases uri h tr)
    as [[t ->]|[cfg [repos [sel [Hc [Hg [Hq [Hp [-> |[[t ->]|[index [repo [Hn ->]]]]]]]]]]]]].
  - eexists. split; [reflexivity|]. intros ev [Hd|[]]. discriminate.
  - eexists. split; [reflexivity|]. intros ev Hin.
    exfalso. exact (quiet_not_in sel _ Hq Hin).
  - eexists. split; [reflexivity|]. intros ev Hin.
    apply in_app_or in Hin. destruct Hin as [Hin|[Hd|[]]]; [|discriminate].
    exfalso. exact (quiet_not_in sel _ Hq Hin).
  - eexists. split; [reflexivity|]. intros ev Hin.
    apply in_app_or in Hin. destruct Hin as [Hin|Hin];
      [exfalso; exact (quiet_not_in sel _ Hq Hin)|].
    cbn [app] in Hin. destruct Hin as [Hd|Hin]; [discriminate|].
    apply in_app_or in Hin. destruct Hin as [Hin|Hin].
    + apply in_map_iff in Hin. destruct Hin as [x [[= ->] Hx]].
      exists cfg, repos, repo. repeat split; auto.
      * now apply nth_error_In with index.
      * now apply generate_events_in.
    + exfalso. unfold conclusion in Hin.
      destruct (fst (generateCommitMessage (generatorOf cfg)
                       (Some (rootUri_fsPath repo)) (host_world h) []))
        as [commitMessage|e].
      * destruct (truthy commitMessage); [|destruct Hin].
        destruct Hin as [Hd|[Hd|[]]]; discriminate.
      * destruct Hin as [Hd|[]]. discriminate.
Qed.

(** X20: with two or more repositories and none selected by the argument,
    the repository picked in the quick pick is the one the handler goes on
    with, under its index in git's list; a rejected quick pick surfaces as
    one "Error: ..." message and nothing is generated. *)
Theorem quick_pick_choice_is_used
    (uri : option Uri) (h : Host) (tr : list HostEvent) (cfg : Config)
    (repos : list Repository) :
  getConfiguration (host_world h) configSection = inr cfg ->
  git_exports h = Some (inr repos) ->
  (2 <= length repos)%nat ->
  unmatched uri repos ->
  (forall index repo,
     showQuickPick h (map rootUri_fsPath repos) = inr (Some index) ->
     nth_error repos index = Some repo ->
     selectRepository uri repos h tr =
       (Returned (Some (index, repo)),
        tr ++ unmatchedLog uri repos
           ++ [ShowQuickPick (map rootUri_fsPath repos) (lit "Select repository")]))
  /\ (forall e,
        showQuickPick h (map rootUri_fsPath repos) = inl e ->
        createCommitMessage uri h tr =
          (Returned tt,
           tr ++ unmatchedLog uri repos
              ++ [ShowQuickPick (map rootUri_fsPath repos) (lit "Select repository")]
              ++ [ShowErrorMessage (lit "Error: " ++ message e)])).
Proof.
  intros Hc Hg Hlen Hu. split.
  - intros index repo Hp Hn.
    rewrite (select_unmatched uri repos h tr Hu).
    rewrite (choose_several repos h _ Hlen), Hp, Hn. now rewrite <- app_assoc.
  - intros e Hp. rewrite handler_run, Hc, Hg.
    rewrite (select_unmatched uri repos h tr Hu).
    rewrite (choose_several repos h _ Hlen), Hp. now rewrite <- !app_assoc.
Qed.

Lemma quick_pick_choice_is_used_witness :
  selectRepository (Some (fileUri "/elsewhere/a.ts"))
    [repoAt "/work/app"; repoAt "/work/lib"]
    (editor (scripted (inr unsetConfig) (inr sampleDiff) (inr []) (inr []))
       [repoAt "/work/app"; repoAt "/work/lib"] (inr (Some 1%nat))) [] =
  (Returned (Some (1%nat, repoAt "/work/lib")),
   [] ++ unmatchedLog (Some (fileUri "/elsewhere/a.ts"))
           [repoAt "/work/app"; repoAt "/work/lib"]
      ++ [ShowQuickPick [lit "/work/app"; lit "/work/lib"]
            (lit "Select repository")]).
Proof.
  refine (proj1 (quick_pick_choice_is_used
                   (Some (fileUri "/elsewhere/a.ts"))
                   (editor (scripted (inr unsetConfig) (inr sampleDiff) (inr []) (inr []))
                      [repoAt "/work/app"; repoAt "/work/lib"] (inr (Some 1%nat)))
                   [] unsetConfig [repoAt "/work/app"; repoAt "/work/lib"]
                   eq_refl eq_refl _ _)
            1%nat (repoAt "/work/lib") eq_refl eq_refl).
  - cbn. lia.
  - intros r [<-|[<-|[]]]; reflexivity.
Defined.
